(** * A shallow embedding of [app.py] (Flask product-management API)

    The development follows the layout of the source file:
    - [PyStr]: the [str] methods the handlers call ([strip], [lower],
      [split], [isdigit]) and [re.sub(r'\D', '', _)];
    - [Re]: regular expressions and [re.match] on an anchored pattern;
    - [Validators]: [validate_auth_data] and [validate_registration_data]
      on a body whose members are strings;
    - [Json]: JSON values, their truth value, length and equality, and the
      two validators on any JSON value, with the exceptions they raise;
    - the external libraries ([jwt], [bson], [werkzeug], [pymongo] and the
      [int]/[float] builtins) as interfaces;
    - [App]: the store, the auth middleware and the route handlers.

    A [str] is a sequence of characters with code points below 256
    ([string] of the standard library, read as Latin-1). The registration
    routes take any JSON value as body; the login routes take an object
    whose members are strings. *)

From Stdlib Require Import ZArith Ascii String Floats.
From Stdlib Require DecimalString DecimalZ.
From stdpp Require Import base gmap strings list fin_maps sorting.

(** ** Python [str] primitives *)
Module PyStr.

Definition ord (c : ascii) : N := N_of_ascii c.

Definition between (lo hi : N) (c : ascii) : bool :=
  (lo <=? ord c)%N && (ord c <=? hi)%N.

(** [c.isspace()]: tab, newline, vertical tab, form feed, carriage return,
    the four separators 0x1c-0x1f, the blank, next line (0x85) and the
    no-break space (0xa0). *)
Definition isspace (c : ascii) : bool :=
  between 9 13 c || between 28 32 c || between 133 133 c || between 160 160 c.

(** [\d] of [re]: the decimal digits. *)
Definition isdecimal (c : ascii) : bool := between 48 57 c.

(** [c.isdigit()]: the decimal digits and the superscripts one, two and
    three. *)
Definition isdigit_char (c : ascii) : bool :=
  isdecimal c || between 178 179 c || between 185 185 c.

(** The cased letters: [A-Z], and 0xc0-0xde without the multiplication
    sign. *)
Definition isupper (c : ascii) : bool :=
  between 65 90 c || (between 192 222 c && negb (between 215 215 c)).

Definition lower_char (c : ascii) : ascii :=
  if isupper c then ascii_of_N (ord c + 32) else c.

(** [s.lower()] *)
Fixpoint lower (s : string) : string :=
  match s with
  | EmptyString => EmptyString
  | String c s' => String (lower_char c) (lower s')
  end.

Definition upper_char (c : ascii) : ascii :=
  if between 97 122 c then ascii_of_N (ord c - 32) else c.

(** [s.capitalize()] for a word that starts with an ASCII letter, as the
    field names of [required_fields] do. *)
Definition capitalize (s : string) : string :=
  match s with
  | EmptyString => EmptyString
  | String c s' => String (upper_char c) (lower s')
  end.

(** Truth value of a [str]: the empty string is false. *)
Definition truthy (s : string) : bool :=
  match s with
  | EmptyString => false
  | String _ _ => true
  end.

(** [s.lstrip()] *)
Fixpoint lstrip (s : string) : string :=
  match s with
  | EmptyString => EmptyString
  | String c s' => if isspace c then lstrip s' else s
  end.

(** [s.rstrip()] *)
Fixpoint rstrip (s : string) : string :=
  match s with
  | EmptyString => EmptyString
  | String c s' =>
      let r := rstrip s' in
      if isspace c && negb (truthy r) then EmptyString else String c r
  end.

(** [s.strip()] *)
Definition strip (s : string) : string := lstrip (rstrip s).

(** [s.split(sep)] for a one-character separator: every occurrence of
    [sep] cuts, empty pieces are kept, and the result is never empty. *)
Fixpoint split (sep : ascii) (s : string) : list string :=
  match s with
  | EmptyString => [EmptyString]
  | String c s' =>
      if Ascii.eqb c sep then EmptyString :: split sep s'
      else match split sep s' with
           | piece :: rest => String c piece :: rest
           | [] => [String c EmptyString]
           end
  end.

Fixpoint filter_chars (p : ascii -> bool) (s : string) : string :=
  match s with
  | EmptyString => EmptyString
  | String c s' => if p c then String c (filter_chars p s') else filter_chars p s'
  end.

Fixpoint all_chars (p : ascii -> bool) (s : string) : bool :=
  match s with
  | EmptyString => true
  | String c s' => p c && all_chars p s'
  end.

(** [re.sub(r'\D', '', s)]: every non-digit character is deleted. *)
Definition re_sub_nondigits (s : string) : string := filter_chars isdecimal s.

(** [s.isdigit()]: at least one character and all of them digits. *)
Definition isdigit (s : string) : bool := truthy s && all_chars isdigit_char s.

(** [len(s)] *)
Definition len (s : string) : Z := Z.of_nat (String.length s).

End PyStr.

(** ** Regular expressions, as far as [email_pattern] needs them *)
Module Re.
Import PyStr.

Inductive regex : Type :=
| Void
| Eps
| Class (ranges : list (ascii * ascii))
| Cat (r1 r2 : regex)
| Alt (r1 r2 : regex)
| Star (r : regex).

(** A bracket expression is a list of inclusive ranges; a single character
    [c] is the range [(c, c)]. *)
Definition in_class (ranges : list (ascii * ascii)) (c : ascii) : bool :=
  existsb (fun r => between (ord (fst r)) (ord (snd r)) c) ranges.

Definition Chr (c : ascii) : regex := Class [(c, c)].
(** [r+] *)
Definition Plus (r : regex) : regex := Cat r (Star r).
(** [r{2,}] *)
Definition AtLeast2 (r : regex) : regex := Cat r (Cat r (Star r)).

Fixpoint nullable (r : regex) : bool :=
  match r with
  | Void => false
  | Eps => true
  | Class _ => false
  | Cat r1 r2 => nullable r1 && nullable r2
  | Alt r1 r2 => nullable r1 || nullable r2
  | Star _ => true
  end.

Fixpoint deriv (c : ascii) (r : regex) : regex :=
  match r with
  | Void => Void
  | Eps => Void
  | Class rs => if in_class rs c then Eps else Void
  | Cat r1 r2 =>
      if nullable r1 then Alt (Cat (deriv c r1) r2) (deriv c r2)
      else Cat (deriv c r1) r2
  | Alt r1 r2 => Alt (deriv c r1) (deriv c r2)
  | Star r1 => Cat (deriv c r1) (Star r1)
  end.

(** The whole string is a word of [r]. *)
Fixpoint fullmatch (r : regex) (s : string) : bool :=
  match s with
  | EmptyString => nullable r
  | String c s' => fullmatch (deriv c r) s'
  end.

(** The string without its last character, when that is a newline. *)
Fixpoint chop_newline (s : string) : option string :=
  match s with
  | EmptyString => None
  | String c EmptyString => if Ascii.eqb c "010" then Some EmptyString else None
  | String c s' => String c <$> chop_newline s'
  end.

(** [re.match('^' r '$', s)] without flags: [$] matches at the end of the
    string and also just before a newline that ends the string. *)
Definition match_anchored (r : regex) (s : string) : bool :=
  fullmatch r s ||
  match chop_newline s with
  | Some s' => fullmatch r s'
  | None => false
  end.

(** The words of a regular expression. *)
Inductive Matches : regex -> string -> Prop :=
| MEps : Matches Eps EmptyString
| MClass rs c : in_class rs c = true -> Matches (Class rs) (String c EmptyString)
| MCat r1 r2 s1 s2 :
    Matches r1 s1 -> Matches r2 s2 -> Matches (Cat r1 r2) (s1 +:+ s2)
| MAltL r1 r2 s : Matches r1 s -> Matches (Alt r1 r2) s
| MAltR r1 r2 s : Matches r2 s -> Matches (Alt r1 r2) s
| MStarNil r : Matches (Star r) EmptyString
| MStarApp r s1 s2 :
    Matches r s1 -> Matches (Star r) s2 -> Matches (Star r) (s1 +:+ s2).

End Re.

(** ** The input validators (app.py, lines 111-173)

    Here [data] is an object whose members are strings, given as the map
    from the member names to their texts; on such a body no statement of
    the validators raises. [Json] has the validators on every body. *)
Module Validators.
Import PyStr Re.

(** [data.get(key, '')] *)
Definition get (data : gmap string string) (key : string) : string :=
  default EmptyString (data !! key).

Definition local_class : list (ascii * ascii) :=
  [("a", "z"); ("A", "Z"); ("0", "9"); (".", "."); ("_", "_"); ("%", "%");
   ("+", "+"); ("-", "-")]%char.
Definition domain_class : list (ascii * ascii) :=
  [("a", "z"); ("A", "Z"); ("0", "9"); (".", "."); ("-", "-")]%char.
Definition letter_class : list (ascii * ascii) :=
  [("a", "z"); ("A", "Z")]%char.

(** [^[a-zA-Z0-9._%+-]+@[a-zA-Z0-9.-]+\.[a-zA-Z]{2,}$], between the anchors *)
Definition email_pattern : regex :=
  Cat (Plus (Class local_class))
   (Cat (Chr "@")
     (Cat (Plus (Class domain_class))
       (Cat (Chr ".") (AtLeast2 (Class letter_class))))).

Definition validate_auth_data (data : gmap string string) (is_login : bool)
  : gmap string string :=
  let errors : gmap string string := ∅ in
  let errors :=
    if negb is_login then
      let name := strip (get data "name") in
      if negb (truthy name) then <["name" := "Name is required"]> errors
      else if (len name <? 2)%Z then
        <["name" := "Name must be at least 2 characters long"]> errors
      else errors
    else errors in
  let email := lower (strip (get data "email")) in
  let errors :=
    if negb (truthy email) then <["email" := "Email is required"]> errors
    else if negb (match_anchored email_pattern email) then
      <["email" := "Must be a valid email format"]> errors
    else errors in
  let password := get data "password" in
  let errors :=
    if negb (truthy password) then <["password" := "Password is required"]> errors
    else if (len password <? 6)%Z then
      <["password" := "Password must be at least 6 characters long"]> errors
    else errors in
  errors.

Definition validate_registration_data (data : gmap string string)
  : gmap string string :=
  let errors : gmap string string := ∅ in
  let full_name := strip (get data "fullName") in
  let errors :=
    if negb (truthy full_name) then <["fullName" := "Full Name is required"]> errors
    else if (len full_name <? 2)%Z then
      <["fullName" := "Full Name must be at least 2 characters long"]> errors
    else errors in
  let email := lower (strip (get data "email")) in
  let errors :=
    if negb (truthy email) then <["email" := "Email is required"]> errors
    else if negb (match_anchored email_pattern email) then
      <["email" := "Must be a valid email format"]> errors
    else errors in
  let phone := strip (get data "phone") in
  let phone_digits := re_sub_nondigits phone in
  let errors :=
    if negb (truthy phone) then <["phone" := "Phone number is required"]> errors
    else if (len phone_digits <? 10)%Z || (len phone_digits >? 15)%Z then
      <["phone" := "Phone must contain 10 to 15 digits only"]> errors
    else if negb (isdigit phone_digits) then
      <["phone" := "Phone must contain digits only"]> errors
    else errors in
  let password := get data "password" in
  let errors :=
    if negb (truthy password) then <["password" := "Password is required"]> errors
    else if (len password <? 6)%Z then
      <["password" := "Password must be at least 6 characters long"]> errors
    else errors in
  let confirm_password := get data "confirmPassword" in
  let errors :=
    if negb (truthy confirm_password) then
      <["confirmPassword" := "Confirm Password is required"]> errors
    else if negb (String.eqb password confirm_password) then
      <["confirmPassword" := "Passwords do not match"]> errors
    else errors in
  errors.

End Validators.

(** ** Values, documents and the libraries the handlers call *)
Module Lib.
Import PyStr.

(** A JSON value of a request body. For an array or an object only its
    truth value matters to the handlers. *)
Inductive pyval : Type :=
| VNone
| VBool (b : bool)
| VInt (n : Z)
| VFloat (x : float)
| VStr (s : string)
| VContainer (nonempty : bool).

(** [bool(v)] *)
Definition py_truthy (v : pyval) : bool :=
  match v with
  | VNone => false
  | VBool b => b
  | VInt n => negb (n =? 0)%Z
  | VFloat x => negb (x =? 0)%float
  | VStr s => truthy s
  | VContainer nonempty => nonempty
  end.

(** The exceptions the handlers can meet. *)
Inductive exn : Type :=
| KeyError (key : string)
| AttributeError
| ValueError
| TypeError
| OverflowError.

#[global] Instance exc_ret : MRet (sum exn) := fun _ x => inr x.
#[global] Instance exc_bind : MBind (sum exn) :=
  fun _ _ f m => match m with inl e => inl e | inr x => f x end.

(** [data[key]] *)
Definition getitem {V : Type} (data : gmap string V) (key : string) : exn + V :=
  match data !! key with
  | Some v => inr v
  | None => inl (KeyError key)
  end.

(** [v.strip()]: only a [str] has the method. *)
Definition strip_val (v : pyval) : exn + string :=
  match v with
  | VStr s => inr (strip s)
  | _ => inl AttributeError
  end.

(** [float(n)] for an [int]: the nearest binary64 value, [None] for the
    [OverflowError] of an integer beyond the range. *)
Definition float_of_int (n : Z) : option float :=
  match SpecFloat.binary_normalize 53 1024 n 0 false with
  | SpecFloat.S754_infinity _ => None
  | x => Some (SF2Prim x)
  end.

(** The [int] and [float] builtins on a [str]; [None] is [ValueError]. *)
Class Builtins : Type := {
  int_of_str : string -> option Z;
  float_of_str : string -> option float
}.

(** [float(v)] *)
Definition py_float `{Builtins} (v : pyval) : exn + float :=
  match v with
  | VNone => inl TypeError
  | VBool b => inr (if b then 1 else 0)%float
  | VInt n =>
      match float_of_int n with
      | Some x => inr x
      | None => inl OverflowError
      end
  | VFloat x => inr x
  | VStr s =>
      match float_of_str s with
      | Some x => inr x
      | None => inl ValueError
      end
  | VContainer _ => inl TypeError
  end.

(** *** bson *)

(** An [ObjectId] is kept as the lower-case hexadecimal text of its bytes,
    which is what [str] prints: 24 characters for the 12 bytes the driver
    generates. *)
Abbreviation ObjectId := string (only parsing).

Definition ishex (c : ascii) : bool :=
  isdecimal c || between 97 102 c || between 65 70 c.

(** The white space [bytes.fromhex] skips: tab, newline, vertical tab, form
    feed, carriage return and the blank. *)
Definition is_ascii_space (c : ascii) : bool :=
  between 9 13 c || between 32 32 c.

(** [bytes.fromhex(s)], printed back in hexadecimal: white space is skipped
    before each byte, and a byte is two adjacent hexadecimal digits in
    either case; [None] is [ValueError]. *)
Fixpoint fromhex (s : string) : option string :=
  match s with
  | EmptyString => Some EmptyString
  | String c s' =>
      if is_ascii_space c then fromhex s'
      else
        match s' with
        | String c' s'' =>
            if ishex c && ishex c' then
              (fun rest => String (lower_char c) (String (lower_char c') rest))
                <$> fromhex s''
            else None
        | EmptyString => None
        end
  end.

(** [ObjectId(s)]: a text of 24 characters that [bytes.fromhex] reads; the
    bytes are not counted, so a text with white space gives an identifier
    of fewer than 12 bytes. [None] is [InvalidId]. *)
Definition oid_parse (s : string) : option ObjectId :=
  if (String.length s =? 24)%nat then fromhex s else None.

(** [str(oid)] *)
Definition oid_str (oid : ObjectId) : string := oid.

(** *** jwt *)

Inductive algorithm : Type := HS256 | HS384 | HS512.

#[global] Instance algorithm_eq_dec : EqDecision algorithm.
Proof. solve_decision. Defined.

(** The payload of the tokens of this application; [claim_exp] counts
    seconds since the epoch. *)
Record Claims : Type := {
  claim_user_id : string;
  claim_email : string;
  claim_exp : Z
}.

Inductive decoded : Type :=
| Decoded (payload : Claims)
| ExpiredSignatureError
| InvalidTokenError.

Definition no_blank (s : string) : bool :=
  all_chars (fun c => negb (Ascii.eqb c " ")) s.

(** Modelled from the spec: the [jwt] package ([jwt.encode], [jwt.decode]),
    which the repository imports and does not contain. [jwt_encode payload
    key alg] is the signed token and [jwt_decode token key algs now]
    verifies it at the instant [now]. Following section 4.2, a token signed
    with the key and an accepted algorithm decodes to its payload unless
    [now] is past its expiration instant; a token is a non-empty string
    without blanks. *)
Class Jwt : Type := {
  jwt_encode : Claims -> string -> algorithm -> string;
  jwt_decode : string -> string -> list algorithm -> Z -> decoded;
  jwt_decode_encode payload key alg algs now :
    alg ∈ algs ->
    jwt_decode (jwt_encode payload key alg) key algs now
    = if (claim_exp payload <? now)%Z then ExpiredSignatureError
      else Decoded payload;
  jwt_token_shape payload key alg :
    truthy (jwt_encode payload key alg) = true /\
    no_blank (jwt_encode payload key alg) = true
}.

(** *** werkzeug.security *)
Class Werkzeug : Type := {
  generate_password_hash : string -> string;
  check_password_hash : string -> string -> bool
}.

(** *** The documents of the two collections *)

Record User : Type := {
  u_id : ObjectId;
  u_name : option string;
  u_fullName : option string;
  u_email : string;
  u_phone : option string;
  u_password : string;
  u_createdAt : Z;
  u_isActive : bool
}.

Record Product : Type := {
  p_oid : ObjectId;
  p_id : string;
  p_title : string;
  p_description : string;
  p_price : float;
  p_image : pyval;
  p_createdBy : string;
  p_createdAt : Z;
  p_updatedAt : option Z
}.

Record Database : Type := {
  users : list User;
  products : list Product
}.

(** *** pymongo: text search and sorting *)
Class Pymongo : Type := {
  (** the filter [{'$text': {'$search': keyword}}] *)
  text_search : string -> Product -> bool;
  (** [cursor.sort([(field, direction)])] *)
  sort_by : string -> Z -> list Product -> list Product;
  sort_by_perm field direction l : sort_by field direction l ≡ₚ l
}.

(** The largest integer the driver encodes ([2^63 - 1]): a larger one in a
    command raises [OverflowError] when the command is sent. *)
Definition max_int64 : Z := 9223372036854775807.

(** [find_one({'email': email})] *)
Definition find_user_by_email (email : string) (coll : list User) : option User :=
  List.find (fun u => String.eqb (u_email u) email) coll.

(** [find_one({'_id': oid})] *)
Definition find_user_by_id (oid : ObjectId) (coll : list User) : option User :=
  List.find (fun u => String.eqb (u_id u) oid) coll.

(** [find_one({'id': product_id})] *)
Definition find_product (product_id : string) (coll : list Product)
  : option Product :=
  List.find (fun p => String.eqb (p_id p) product_id) coll.

(** [update_one({'id': product_id}, {'$set': ...})]: the first match is
    updated. *)
Fixpoint update_one (product_id : string) (set : Product -> Product)
    (coll : list Product) : list Product :=
  match coll with
  | [] => []
  | p :: rest =>
      if String.eqb (p_id p) product_id then set p :: rest
      else p :: update_one product_id set rest
  end.

(** *** Responses *)

Record Pagination : Type := {
  currentPage : Z;
  totalPages : Z;
  totalItems : Z;
  itemsPerPage : Z;
  hasNext : bool;
  hasPrev : bool
}.

Inductive body : Type :=
(** [{'error': msg}] *)
| Error (msg : string)
(** [{'error': 'Validation failed', 'errors': errors}] *)
| ValidationFailed (errors : gmap string string)
(** [{'error': 'Internal server error', 'details': ...}]; no exception is
    shown in production. *)
| ServerError (details : option exn)
(** token responses of [/api/auth/register] and [/api/auth/login] *)
| AuthOk (message token id name email : string) (createdAt : option Z)
(** [/api/auth/verify] *)
| VerifyOk (id name email : string)
(** [/api/register] *)
| UserOk (id fullName email phone : string) (createdAt : Z)
| ProductOk (message : string) (product : Product)
| ProductList (items : list Product) (pagination : Pagination)
    (keyword sort : string).

Record response : Type := { status : Z; payload : body }.

(** What a request reads from its environment: the clock, the identifier
    the driver gives the inserted document, and [uuid.uuid4()]. *)
Record Env : Type := {
  now : Z;
  new_oid : ObjectId;
  new_uuid : string
}.

Record Config : Type := {
  SECRET_KEY : string;
  ENV : string
}.

(** [timedelta(hours=n)] in seconds *)
Definition hours (n : Z) : Z := (n * 3600)%Z.

End Lib.

(** ** JSON values, and the validators on them *)
Module Json.
Import PyStr Re Validators Lib.

Set Warnings "-register-all".

(** What [request.get_json()] returns: [None], a [bool], an [int], a
    [float], a [str], a [list] or a [dict] with [str] keys. *)
Inductive json : Type :=
| JNull
| JBool (b : bool)
| JInt (n : Z)
| JFloat (x : float)
| JStr (s : string)
| JList (items : list json)
| JDict (members : gmap string json).

(** [bool(v)] *)
Definition json_truthy (v : json) : bool :=
  match v with
  | JNull => false
  | JBool b => b
  | JInt n => negb (n =? 0)%Z
  | JFloat x => negb (x =? 0)%float
  | JStr s => truthy s
  | JList items => negb (length items =? 0)%nat
  | JDict members => negb (size members =? 0)%nat
  end.

(** [data.get(key, dflt)]: only a [dict] has the method. *)
Definition json_get (data : json) (key : string) (dflt : json) : exn + json :=
  match data with
  | JDict members => inr (default dflt (members !! key))
  | _ => inl AttributeError
  end.

(** [data[key]] *)
Definition json_item (data : json) (key : string) : exn + json :=
  match data with
  | JDict members => getitem members key
  | _ => inl TypeError
  end.

(** [v.strip()]: only a [str] has the method. *)
Definition json_strip (v : json) : exn + string :=
  match v with
  | JStr s => inr (strip s)
  | _ => inl AttributeError
  end.

(** [len(v)] *)
Definition json_len (v : json) : exn + Z :=
  match v with
  | JStr s => inr (len s)
  | JList items => inr (Z.of_nat (length items))
  | JDict members => inr (Z.of_nat (size members))
  | _ => inl TypeError
  end.

(** [x == n] for a [float] and an [int]: the values are compared exactly,
    without rounding the integer. *)
Definition float_eq_int (x : float) (n : Z) : bool :=
  match Prim2SF x with
  | SpecFloat.S754_zero _ => (n =? 0)%Z
  | SpecFloat.S754_finite negative m e =>
      let signed (z : Z) : Z := if negative then (- z)%Z else z in
      if (0 <=? e)%Z then (n =? signed (Z.pos m * 2 ^ e))%Z
      else ((Z.pos m) mod 2 ^ (- e) =? 0)%Z
           && (n =? signed (Z.pos m / 2 ^ (- e)))%Z
  | _ => false
  end.

(** A number, with [False] and [True] as 0 and 1. *)
Definition number (v : json) : option (Z + float) :=
  match v with
  | JBool b => Some (inl (if b then 1 else 0)%Z)
  | JInt n => Some (inl n)
  | JFloat x => Some (inr x)
  | _ => None
  end.

(** Equality of two numbers. The parser gives every [NaN] of a body the
    same object, and the elements of a list or of a dict are first compared
    by identity: there, and only there, [NaN] equals [NaN]. *)
Definition number_eq (element : bool) (a b : Z + float) : bool :=
  match a, b with
  | inl m, inl n => (m =? n)%Z
  | inr x, inr y => (x =? y)%float || (element && is_nan x && is_nan y)
  | inl n, inr x | inr x, inl n => float_eq_int x n
  end.

(** [a == b]; [element] tells that the two values are elements of the lists
    or dicts under comparison. *)
Fixpoint json_eq (element : bool) (a b : json) {struct a} : bool :=
  match a, b with
  | JNull, JNull => true
  | JStr s, JStr t => String.eqb s t
  | JList items, JList items' =>
      (fix all2 (l l' : list json) : bool :=
         match l, l' with
         | [], [] => true
         | x :: r, y :: r' => json_eq true x y && all2 r r'
         | _, _ => false
         end) items items'
  | JDict members, JDict members' =>
      (size members =? size members')%nat &&
      map_fold (fun key v equal =>
                  equal && match members' !! key with
                           | Some v' => json_eq true v v'
                           | None => false
                           end) true members
  | (JBool _ | JInt _ | JFloat _), (JBool _ | JInt _ | JFloat _) =>
      match number a, number b with
      | Some m, Some n => number_eq element m n
      | _, _ => false
      end
  | _, _ => false
  end.

(** [validate_auth_data] (app.py, lines 111-134) on any JSON value; a
    raised exception is the left summand. *)
Definition validate_auth_data (data : json) (is_login : bool)
  : exn + gmap string string :=
  let errors : gmap string string := ∅ in
  errors ←
    (if negb is_login then
       name ← json_get data "name" (JStr "") ≫= json_strip;
       mret (if negb (truthy name) then <["name" := "Name is required"]> errors
             else if (len name <? 2)%Z then
               <["name" := "Name must be at least 2 characters long"]> errors
             else errors)
     else mret errors);
  email ← json_get data "email" (JStr "") ≫= json_strip;
  let email := lower email in
  let errors :=
    if negb (truthy email) then <["email" := "Email is required"]> errors
    else if negb (match_anchored email_pattern email) then
      <["email" := "Must be a valid email format"]> errors
    else errors in
  password ← json_get data "password" (JStr "");
  if negb (json_truthy password) then
    mret (<["password" := "Password is required"]> errors)
  else
    n ← json_len password;
    mret (if (n <? 6)%Z then
            <["password" := "Password must be at least 6 characters long"]> errors
          else errors).

(** [validate_registration_data] (app.py, lines 136-173) on any JSON
    value. *)
Definition validate_registration_data (data : json)
  : exn + gmap string string :=
  let errors : gmap string string := ∅ in
  full_name ← json_get data "fullName" (JStr "") ≫= json_strip;
  let errors :=
    if negb (truthy full_name) then <["fullName" := "Full Name is required"]> errors
    else if (len full_name <? 2)%Z then
      <["fullName" := "Full Name must be at least 2 characters long"]> errors
    else errors in
  email ← json_get data "email" (JStr "") ≫= json_strip;
  let email := lower email in
  let errors :=
    if negb (truthy email) then <["email" := "Email is required"]> errors
    else if negb (match_anchored email_pattern email) then
      <["email" := "Must be a valid email format"]> errors
    else errors in
  phone ← json_get data "phone" (JStr "") ≫= json_strip;
  let phone_digits := re_sub_nondigits phone in
  let errors :=
    if negb (truthy phone) then <["phone" := "Phone number is required"]> errors
    else if (len phone_digits <? 10)%Z || (len phone_digits >? 15)%Z then
      <["phone" := "Phone must contain 10 to 15 digits only"]> errors
    else if negb (isdigit phone_digits) then
      <["phone" := "Phone must contain digits only"]> errors
    else errors in
  password ← json_get data "password" (JStr "");
  errors ←
    (if negb (json_truthy password) then
       mret (<["password" := "Password is required"]> errors)
     else
       n ← json_len password;
       mret (if (n <? 6)%Z then
               <["password" := "Password must be at least 6 characters long"]> errors
             else errors));
  confirm_password ← json_get data "confirmPassword" (JStr "");
  mret (if negb (json_truthy confirm_password) then
          <["confirmPassword" := "Confirm Password is required"]> errors
        else if negb (json_eq false password confirm_password) then
          <["confirmPassword" := "Passwords do not match"]> errors
        else errors).

(** The members of a body that are strings, and the body made of string
    members only. *)
Definition text (v : json) : option string :=
  match v with
  | JStr s => Some s
  | _ => None
  end.

Definition texts (data : json) : gmap string string :=
  match data with
  | JDict members => omap text members
  | _ => ∅
  end.

Definition object (data : gmap string string) : json := JDict (JStr <$> data).

End Json.

(** ** The middleware and the route handlers *)
Module App.
Import PyStr Json Validators Lib.

Section Handlers.
Context `{Jwt} `{Werkzeug} `{Builtins} `{Pymongo}.
Variable cfg : Config.

Definition respond (code : Z) (b : body) : response :=
  {| status := code; payload := b |}.

(** The handler of the outer [except Exception] clause of every route. *)
Definition server_error (e : exn) : response :=
  respond 500
    (ServerError (if String.eqb (ENV cfg) "production" then None else Some e)).

(** [if not data] for a JSON object that may be absent. *)
Definition no_data {V : Type} (data : option (gmap string V)) : bool :=
  match data with
  | None => true
  | Some m => bool_decide (m = ∅)
  end.

(** The [jwt.encode] call of [register_jwt] and [login_jwt]. *)
Definition issue_token (env : Env) (user_id email : string) : string :=
  jwt_encode
    {| claim_user_id := user_id;
       claim_email := email;
       claim_exp := (now env + hours 24)%Z |}
    (SECRET_KEY cfg) HS256.

(** The body of [decorated] up to its last line: a rejection, or the
    user the wrapped function is called with. [db] is [None] when
    [init_database] failed. *)
Definition authenticate (db : option Database) (env : Env)
    (auth_header : option string) : response + User :=
  match db with
  | None => inl (respond 503 (Error "Database unavailable"))
  | Some d =>
      let token : response + option string :=
        match auth_header with
        | Some header =>
            if truthy header then
              match split " " header !! 1%nat with
              | Some t => inr (Some t)
              | None => inl (respond 401 (Error "Invalid token format"))
              end
            else inr None
        | None => inr None
        end in
      match token with
      | inl rejection => inl rejection
      | inr token =>
          if negb (truthy (default EmptyString token)) then
            inl (respond 401 (Error "Token is missing"))
          else
            match jwt_decode (default EmptyString token) (SECRET_KEY cfg)
                    [HS256] (now env) with
            | ExpiredSignatureError =>
                inl (respond 401 (Error "Token has expired"))
            | InvalidTokenError =>
                inl (respond 401 (Error "Token is invalid"))
            | Decoded data =>
                match oid_parse (claim_user_id data) with
                | None => inl (respond 401 (Error "Token validation failed"))
                | Some oid =>
                    match find_user_by_id oid (users d) with
                    | None => inl (respond 401 (Error "User not found"))
                    | Some current_user => inr current_user
                    end
                end
            end
      end
  end.

(** [@auth_middleware]: the wrapped function runs only on a resolved user. *)
Definition auth_middleware (f : User -> option Database * response)
    (db : option Database) (env : Env) (auth_header : option string)
  : option Database * response :=
  match authenticate db env auth_header with
  | inl rejection => (db, rejection)
  | inr current_user => f current_user
  end.

Definition caught (db : option Database)
    (r : exn + option Database * response) : option Database * response :=
  match r with
  | inl e => (db, server_error e)
  | inr out => out
  end.

(** [insert_one] into the users collection *)
Definition insert_user (u : User) (d : Database) : Database :=
  {| users := users d ++ [u]; products := products d |}.

(** [generate_password_hash(v)]: the password is encoded first, which only
    a [str] can be. *)
Definition json_hash (v : json) : exn + string :=
  match v with
  | JStr s => inr (generate_password_hash s)
  | _ => inl AttributeError
  end.

(** [POST /api/auth/register]; [data] is what [request.get_json()]
    returned. *)
Definition register_jwt (db : option Database) (env : Env) (data : json)
  : option Database * response :=
  match db with
  | None => (db, respond 503 (Error "Service temporarily unavailable"))
  | Some d =>
      caught db (
        if negb (json_truthy data) then
          mret (db, respond 400 (Error "No data provided"))
        else
          validation_errors ← Json.validate_auth_data data false;
          if negb (bool_decide (validation_errors = ∅)) then
            mret (db, respond 400 (ValidationFailed validation_errors))
          else
            email ← json_item data "email" ≫= json_strip;
            match find_user_by_email (lower email) (users d) with
            | Some existing_user =>
                mret (db, respond 400
                       (ValidationFailed {[ "email" := "Email already registered" ]}))
            | None =>
                hashed_password ← json_item data "password" ≫= json_hash;
                name ← json_item data "name" ≫= json_strip;
                let user_data :=
                  {| u_id := new_oid env;
                     u_name := Some name;
                     u_fullName := None;
                     u_email := lower email;
                     u_phone := None;
                     u_password := hashed_password;
                     u_createdAt := now env;
                     u_isActive := true |} in
                let user_id := oid_str (new_oid env) in
                let token := issue_token env user_id (u_email user_data) in
                mret (Some (insert_user user_data d),
                      respond 201
                        (AuthOk "User registered successfully" token user_id
                           name (u_email user_data)
                           (Some (u_createdAt user_data))))
            end)
  end.

(** [user.get('name', user.get('fullName', ''))] *)
Definition display_name (u : User) : string :=
  default (default EmptyString (u_fullName u)) (u_name u).

(** [POST /api/auth/login] *)
Definition login_jwt (db : option Database) (env : Env)
    (data : option (gmap string string)) : option Database * response :=
  match db with
  | None => (db, respond 503 (Error "Service temporarily unavailable"))
  | Some d =>
      if no_data data then (db, respond 400 (Error "No data provided"))
      else
        let data := default ∅ data in
        let validation_errors := validate_auth_data data true in
        if negb (bool_decide (validation_errors = ∅)) then
          (db, respond 400 (ValidationFailed validation_errors))
        else caught db (
          email ← getitem data "email";
          let invalid := respond 401 (Error "Invalid email or password") in
          match find_user_by_email (lower (strip email)) (users d) with
          | None => mret (db, invalid)
          | Some user =>
              password ← getitem data "password";
              if negb (check_password_hash (u_password user) password) then
                mret (db, invalid)
              else
                let token := issue_token env (oid_str (u_id user)) (u_email user) in
                mret (db, respond 200
                            (AuthOk "Login successful" token (oid_str (u_id user))
                               (display_name user) (u_email user) None))
          end)
  end.

(** [GET /api/auth/verify], behind the middleware *)
Definition verify_token (db : option Database) (current_user : User)
  : option Database * response :=
  (db, respond 200
         (VerifyOk (oid_str (u_id current_user)) (display_name current_user)
            (u_email current_user))).

(** [POST /api/register] *)
Definition register_user (db : option Database) (env : Env) (data : json)
  : option Database * response :=
  match db with
  | None => (db, respond 503 (Error "Service temporarily unavailable"))
  | Some d =>
      caught db (
        if negb (json_truthy data) then
          mret (db, respond 400 (Error "No data provided"))
        else
          validation_errors ← Json.validate_registration_data data;
          if negb (bool_decide (validation_errors = ∅)) then
            mret (db, respond 400 (ValidationFailed validation_errors))
          else
            email ← json_item data "email" ≫= json_strip;
            match find_user_by_email (lower email) (users d) with
            | Some existing_user =>
                mret (db, respond 400
                       (ValidationFailed {[ "email" := "Email already registered" ]}))
            | None =>
                fullName ← json_item data "fullName" ≫= json_strip;
                phone ← json_item data "phone" ≫= json_strip;
                hashed_password ← json_item data "password" ≫= json_hash;
                let user_data :=
                  {| u_id := new_oid env;
                     u_name := None;
                     u_fullName := Some fullName;
                     u_email := lower email;
                     u_phone := Some (re_sub_nondigits phone);
                     u_password := hashed_password;
                     u_createdAt := now env;
                     u_isActive := true |} in
                mret (Some (insert_user user_data d),
                      respond 201
                        (UserOk (oid_str (new_oid env)) fullName
                           (u_email user_data) (re_sub_nondigits phone)
                           (u_createdAt user_data)))
            end)
  end.

(** [int(request.args.get(key, dflt))] *)
Definition int_arg (args : gmap string string) (key : string) (dflt : Z)
  : exn + Z :=
  match args !! key with
  | None => inr dflt
  | Some s =>
      match int_of_str s with
      | Some n => inr n
      | None => inl ValueError
      end
  end.

(** [products_collection.find(query_filter)]: every product, or the text
    search when a keyword is given. *)
Definition find_products (keyword : string) (coll : list Product)
  : list Product :=
  if truthy keyword then List.filter (text_search keyword) coll else coll.

(** [cursor.sort(sort_criteria)]: a leading [-] asks for descending order,
    and an empty parameter leaves the cursor unsorted. *)
Definition sorted_cursor (sort_param : string) (found : list Product)
  : list Product :=
  match sort_param with
  | EmptyString => found
  | String "-" field => sort_by field (-1) found
  | _ => sort_by sort_param 1 found
  end.

(** [GET /api/products], behind the middleware *)
Definition get_products (db : option Database)
    (args : gmap string string) (current_user : User)
  : option Database * response :=
  match db with
  | None => (db, respond 503 (Error "Service temporarily unavailable"))
  | Some d =>
      caught db (
        page ← int_arg args "page" 1;
        limit ← int_arg args "limit" 10;
        let sort_param := default "-createdAt" (args !! "sort") in
        let keyword := default EmptyString (args !! "keyword") in
        let page := if (page <? 1)%Z then 1%Z else page in
        let limit := if (limit <? 1)%Z || (limit >? 100)%Z then 10%Z else limit in
        let found := find_products keyword (products d) in
        let skip := ((page - 1) * limit)%Z in
        (* [list(cursor)] sends the command, [skip] and [limit] with it *)
        if (max_int64 <? skip)%Z then inl OverflowError
        else
          let items :=
            take (Z.to_nat limit)
              (drop (Z.to_nat skip) (sorted_cursor sort_param found)) in
          let total_count := Z.of_nat (length found) in
          let total_pages := ((total_count + limit - 1) / limit)%Z in
          mret (db, respond 200
                      (ProductList items
                         {| currentPage := page;
                            totalPages := total_pages;
                            totalItems := total_count;
                            itemsPerPage := limit;
                            hasNext := (page <? total_pages)%Z;
                            hasPrev := (page >? 1)%Z |}
                         keyword sort_param)))
  end.

(** [if not data.get(field)] *)
Definition missing (data : gmap string pyval) (field : string) : bool :=
  negb (py_truthy (default VNone (data !! field))).

(** The loop over [required_fields]. *)
Definition required_errors (data : gmap string pyval) : gmap string string :=
  foldl (fun errors field =>
           if missing data field then
             <[field := capitalize field +:+ " is required"]> errors
           else errors)
        ∅ ["title"; "description"; "price"].

(** The inner [try] of [create_product]: [ValueError] and [TypeError] are
    turned into a field error, any other exception leaves the block. *)
Definition price_errors (data : gmap string pyval)
    (errors : gmap string string) : exn + gmap string string :=
  match py_float (default (VInt 0) (data !! "price")) with
  | inr price =>
      if (price <=? 0)%float then
        inr (<["price" := "Price must be a positive number"]> errors)
      else inr errors
  | inl ValueError | inl TypeError =>
      inr (<["price" := "Price must be a valid number"]> errors)
  | inl e => inl e
  end.

(** [insert_one] into the products collection *)
Definition insert_product (p : Product) (d : Database) : Database :=
  {| users := users d; products := products d ++ [p] |}.

(** [POST /api/products], behind the middleware *)
Definition create_product (db : option Database) (env : Env)
    (data : option (gmap string pyval)) (current_user : User)
  : option Database * response :=
  match db with
  | None => (db, respond 503 (Error "Service temporarily unavailable"))
  | Some d =>
      if no_data data then (db, respond 400 (Error "No data provided"))
      else
        let data := default ∅ data in
        caught db (
          errors ← price_errors data (required_errors data);
          if negb (bool_decide (errors = ∅)) then
            mret (db, respond 400 (ValidationFailed errors))
          else
            title ← getitem data "title" ≫= strip_val;
            description ← getitem data "description" ≫= strip_val;
            price ← getitem data "price" ≫= py_float;
            let product_data :=
              {| p_oid := new_oid env;
                 p_id := new_uuid env;
                 p_title := title;
                 p_description := description;
                 p_price := price;
                 p_image :=
                   default (VStr "https://via.placeholder.com/300x200")
                     (data !! "image");
                 p_createdBy := oid_str (u_id current_user);
                 p_createdAt := now env;
                 p_updatedAt := None |} in
            mret (Some (insert_product product_data d),
                  respond 201 (ProductOk "Product created successfully" product_data)))
  end.

(** The [$set] document of [update_product]. *)
Record Update : Type := {
  set_title : option string;
  set_description : option string;
  set_price : option float;
  set_image : option pyval;
  set_updatedAt : Z
}.

Definition apply_update (u : Update) (p : Product) : Product :=
  {| p_oid := p_oid p;
     p_id := p_id p;
     p_title := default (p_title p) (set_title u);
     p_description := default (p_description p) (set_description u);
     p_price := default (p_price p) (set_price u);
     p_image := default (p_image p) (set_image u);
     p_createdBy := p_createdBy p;
     p_createdAt := p_createdAt p;
     p_updatedAt := Some (set_updatedAt u) |}.

(** [if key in data: update_data[key] = data[key].strip()] *)
Definition stripped_field (data : gmap string pyval) (key : string)
  : exn + option string :=
  match data !! key with
  | None => inr None
  | Some v => s ← strip_val v; mret (Some s)
  end.

(** The price block of [update_product]: a rejection, or the price to set
    if the body has one. *)
Definition checked_price (data : gmap string pyval)
  : exn + (response + option float) :=
  match data !! "price" with
  | None => inr (inr None)
  | Some v =>
      match py_float v with
      | inr price =>
          if (price <=? 0)%float then
            inr (inl (respond 400 (Error "Price must be positive")))
          else inr (inr (Some price))
      | inl ValueError | inl TypeError =>
          inr (inl (respond 400 (Error "Invalid price")))
      | inl e => inl e
      end
  end.

(** [PUT /api/products/<product_id>], behind the middleware *)
Definition update_product (db : option Database) (env : Env)
    (product_id : string) (data : option (gmap string pyval))
    (current_user : User) : option Database * response :=
  match db with
  | None => (db, respond 503 (Error "Service temporarily unavailable"))
  | Some d =>
      if no_data data then (db, respond 400 (Error "No data provided"))
      else
        let data := default ∅ data in
        match find_product product_id (products d) with
        | None => (db, respond 404 (Error "Product not found"))
        | Some product =>
            caught db (
              title ← stripped_field data "title";
              description ← stripped_field data "description";
              price ← checked_price data;
              match price with
              | inl rejection => mret (db, rejection)
              | inr price =>
                  let update_data :=
                    {| set_title := title;
                       set_description := description;
                       set_price := price;
                       set_image := data !! "image";
                       set_updatedAt := now env |} in
                  let d' :=
                    {| users := users d;
                       products :=
                         update_one product_id (apply_update update_data)
                           (products d) |} in
                  match find_product product_id (products d') with
                  | Some updated_product =>
                      mret (Some d',
                            respond 200
                              (ProductOk "Product updated successfully"
                                 updated_product))
                  | None => inl TypeError
                  end
              end)
        end
  end.

End Handlers.
End App.

(** ** The remaining routes: single products, the unauthenticated login
    and the user listings (app.py, lines 431-458, 516-544, 603-692) *)
Module Routes.
Import PyStr Validators Lib App.

(** What the outer [except Exception] of these routes can catch. *)
Inductive failure : Type :=
| Raised (e : exn)
(** [bson.errors.InvalidId] for the text given to [ObjectId] *)
| InvalidId (text : string).

(** A user document read with the projection [{'password': 0}]. *)
Record UserView : Type := {
  v_id : string;
  v_name : option string;
  v_fullName : option string;
  v_email : string;
  v_phone : option string;
  v_createdAt : Z;
  v_isActive : bool
}.

Definition view (u : User) : UserView :=
  {| v_id := oid_str (u_id u);
     v_name := u_name u;
     v_fullName := u_fullName u;
     v_email := u_email u;
     v_phone := u_phone u;
     v_createdAt := u_createdAt u;
     v_isActive := u_isActive u |}.

Inductive reply : Type :=
(** [{'error': msg}] *)
| Failed (msg : string)
(** [{'error': 'Internal server error', 'details': ...}] *)
| Crashed (details : option failure)
(** [/api/login] *)
| LoggedIn (id fullName email phone : string)
(** [/api/users] *)
| UserList (found : list UserView) (count : Z)
(** [/api/users/<user_id>] *)
| UserFound (user : UserView)
(** [GET /api/products/<product_id>] *)
| ProductFound (product : Product)
(** [DELETE /api/products/<product_id>] *)
| ProductDeleted (id title : string).

Record answer : Type := { code : Z; content : reply }.

Section MoreHandlers.
Context `{Werkzeug}.
Variable cfg : Config.

Definition answer_with (c : Z) (r : reply) : answer :=
  {| code := c; content := r |}.

Definition crashed (e : failure) : answer :=
  answer_with 500
    (Crashed (if String.eqb (ENV cfg) "production" then None else Some e)).

Definition unavailable : answer :=
  answer_with 503 (Failed "Service temporarily unavailable").

(** [GET /api/products/<product_id>], behind the middleware *)
Definition get_product (db : option Database) (product_id : string)
    (current_user : User) : option Database * answer :=
  match db with
  | None => (db, unavailable)
  | Some d =>
      match find_product product_id (products d) with
      | None => (db, answer_with 404 (Failed "Product not found"))
      | Some product => (db, answer_with 200 (ProductFound product))
      end
  end.

(** [delete_one({'id': product_id})]: the first match is removed. *)
Fixpoint delete_one (product_id : string) (coll : list Product)
  : list Product :=
  match coll with
  | [] => []
  | p :: rest =>
      if String.eqb (p_id p) product_id then rest
      else p :: delete_one product_id rest
  end.

(** [DELETE /api/products/<product_id>], behind the middleware *)
Definition delete_product (db : option Database) (product_id : string)
    (current_user : User) : option Database * answer :=
  match db with
  | None => (db, unavailable)
  | Some d =>
      match find_product product_id (products d) with
      | None => (db, answer_with 404 (Failed "Product not found"))
      | Some product =>
          (Some {| users := users d;
                   products := delete_one product_id (products d) |},
           answer_with 200 (ProductDeleted (p_id product) (p_title product)))
      end
  end.

(** [user.get('fullName', user.get('name', ''))] *)
Definition full_name (u : User) : string :=
  default (default EmptyString (u_name u)) (u_fullName u).

(** [POST /api/login] *)
Definition login_user (db : option Database)
    (data : option (gmap string string)) : option Database * answer :=
  match db with
  | None => (db, unavailable)
  | Some d =>
      if no_data data
         || negb (truthy (get (default ∅ data) "email"))
         || negb (truthy (get (default ∅ data) "password"))
      then (db, answer_with 400 (Failed "Email and password are required"))
      else
        let data := default ∅ data in
        let invalid := answer_with 401 (Failed "Invalid email or password") in
        match getitem data "email" with
        | inl e => (db, crashed (Raised e))
        | inr email =>
            match find_user_by_email (lower (strip email)) (users d) with
            | None => (db, invalid)
            | Some user =>
                match getitem data "password" with
                | inl e => (db, crashed (Raised e))
                | inr password =>
                    if negb (check_password_hash (u_password user) password)
                    then (db, invalid)
                    else
                      (db, answer_with 200
                             (LoggedIn (oid_str (u_id user)) (full_name user)
                                (u_email user)
                                (default EmptyString (u_phone user))))
                end
            end
        end
  end.

(** [GET /api/users] *)
Definition get_all_users (db : option Database) : option Database * answer :=
  match db with
  | None => (db, unavailable)
  | Some d =>
      let found := view <$> users d in
      (db, answer_with 200 (UserList found (Z.of_nat (length found))))
  end.

(** [GET /api/users/<user_id>] *)
Definition get_user (db : option Database) (user_id : string)
  : option Database * answer :=
  match db with
  | None => (db, unavailable)
  | Some d =>
      match oid_parse user_id with
      | None => (db, crashed (InvalidId user_id))
      | Some oid =>
          match find_user_by_id oid (users d) with
          | None => (db, answer_with 404 (Failed "User not found"))
          | Some user => (db, answer_with 200 (UserFound (view user)))
          end
      end
  end.

End MoreHandlers.
End Routes.

(** ** The validation rules as the specification words them *)
Module Documented.
Import PyStr.

Definition one_of (marks : list ascii) (c : ascii) : bool :=
  existsb (Ascii.eqb c) marks.

(** The letters [a-z] and [A-Z]. *)
Definition isalpha (c : ascii) : bool := between 65 90 c || between 97 122 c.

(** "letters/digits/._%+- in local part" *)
Definition local_char (c : ascii) : bool :=
  isalpha c || isdecimal c || one_of ["."; "_"; "%"; "+"; "-"]%char c.

(** The labels of a domain: letters, digits, dots and hyphens. *)
Definition domain_char (c : ascii) : bool :=
  isalpha c || isdecimal c || one_of ["."; "-"]%char c.

(** [local@domain.tld]: a non-empty local part, an [@], a non-empty domain
    followed by a dot, and a top-level domain of at least two letters. *)
Definition documented_email (s : string) : Prop :=
  exists local domain tld : string,
    s = local +:+ "@" +:+ domain +:+ "." +:+ tld /\
    local <> "" /\ all_chars local_char local = true /\
    domain <> "" /\ all_chars domain_char domain = true /\
    2 <= String.length tld /\ all_chars isalpha tld = true.

(** A phone number is non-empty after trimming and keeps 10 to 15 digits
    once every non-digit character is deleted. *)
Definition documented_phone (p : string) : Prop :=
  strip p <> "" /\
  10 <= String.length (filter_chars isdecimal p) <= 15.

(** "All string inputs are trimmed before validation": the mapping with
    every field trimmed. *)
Definition trim_all (data : gmap string string) : gmap string string :=
  strip <$> data.

(** The mapping with the listed fields trimmed and the others untouched. *)
Definition trim_fields (keys : list string) (data : gmap string string)
  : gmap string string :=
  foldr (alter strip) data keys.


End Documented.

(** * Properties *)

Import PyStr Re Validators Documented.

(** ** Facts about the string primitives *)
Section PyStrFacts.

Lemma app_cons c s t : String c s +:+ t = String c (s +:+ t).
Proof. reflexivity. Qed.

Lemma app_nil_l (s : string) : "" +:+ s = s.
Proof. reflexivity. Qed.

Lemma app_nil_r (s : string) : s +:+ "" = s.
Proof. induction s as [|c s IH]; [done|]. by rewrite app_cons, IH. Qed.

Lemma app_assoc (s t u : string) : (s +:+ t) +:+ u = s +:+ (t +:+ u).
Proof. induction s as [|c s IH]; [done|]. by rewrite !app_cons, IH. Qed.

Lemma app_eq_nil (s t : string) : s +:+ t = "" -> s = "" /\ t = "".
Proof. destruct s; [done|]. rewrite app_cons. discriminate. Qed.

Lemma length_app (s t : string) :
  String.length (s +:+ t) = String.length s + String.length t.
Proof. induction s as [|c s IH]; [done|]. rewrite app_cons. simpl. by rewrite IH. Qed.

Lemma truthy_false s : truthy s = false <-> s = "".
Proof. destruct s; split; intros; done. Qed.

Lemma truthy_true s : truthy s = true <-> s <> "".
Proof. destruct s; split; intros; done. Qed.

Lemma lstrip_idem s : lstrip (lstrip s) = lstrip s.
Proof.
  induction s as [|c s IH]; [done|]. simpl.
  destruct (isspace c) eqn:Hc; [done|]. simpl. by rewrite Hc.
Qed.

Lemma rstrip_idem s : rstrip (rstrip s) = rstrip s.
Proof.
  induction s as [|c s IH]; [done|]. simpl.
  destruct (isspace c && negb (truthy (rstrip s))) eqn:Hc; [done|].
  simpl. by rewrite IH, Hc.
Qed.

(** Stripping on the left keeps a clean right end. *)
Lemma rstrip_lstrip_fixed s : rstrip s = s -> rstrip (lstrip s) = lstrip s.
Proof.
  induction s as [|c s IH]; [done|]. intros Hs.
  assert (rstrip s = s) as Hs'.
  { simpl in Hs. destruct (isspace c && negb (truthy (rstrip s))); congruence. }
  simpl. destruct (isspace c); [by apply IH | exact Hs].
Qed.

Lemma strip_idem s : strip (strip s) = strip s.
Proof.
  unfold strip.
  rewrite (rstrip_lstrip_fixed (rstrip s)) by apply rstrip_idem.
  apply lstrip_idem.
Qed.

Lemma isspace_not_decimal c : isspace c = true -> isdecimal c = false.
Proof. destruct c as [[] [] [] [] [] [] [] []]; vm_compute; congruence. Qed.

Section Filter.
Variable p : ascii -> bool.
Hypothesis p_space : forall c, isspace c = true -> p c = false.

Lemma filter_lstrip s : filter_chars p (lstrip s) = filter_chars p s.
Proof.
  induction s as [|c s IH]; [done|]. simpl.
  destruct (isspace c) eqn:Hc; [|done]. by rewrite (p_space c Hc).
Qed.

Lemma filter_rstrip s : filter_chars p (rstrip s) = filter_chars p s.
Proof.
  induction s as [|c s IH]; [done|]. simpl.
  destruct (isspace c) eqn:Hc; simpl.
  - rewrite (p_space c Hc), <- IH.
    destruct (rstrip s); simpl; [done|]. by rewrite (p_space c Hc).
  - by rewrite IH.
Qed.

Lemma filter_strip s : filter_chars p (strip s) = filter_chars p s.
Proof. unfold strip. by rewrite filter_lstrip, filter_rstrip. Qed.
End Filter.

(** The digits of a phone number do not depend on the surrounding blanks. *)
Lemma digits_strip s : re_sub_nondigits (strip s) = re_sub_nondigits s.
Proof. apply filter_strip, isspace_not_decimal. Qed.

Lemma all_filter p q s :
  (forall c, p c = true -> q c = true) ->
  all_chars q (filter_chars p s) = true.
Proof.
  intros Hpq. induction s as [|c s IH]; [done|]. simpl.
  destruct (p c) eqn:Hc; [|done]. simpl. by rewrite (Hpq c Hc).
Qed.

(** Whatever [re.sub] leaves is a digit string as soon as it is not empty. *)
Lemma isdigit_digits s :
  truthy (re_sub_nondigits s) = true -> isdigit (re_sub_nondigits s) = true.
Proof.
  intros Hne. unfold isdigit. rewrite Hne. apply all_filter.
  intros c Hc. unfold isdigit_char. by rewrite Hc.
Qed.

End PyStrFacts.

(** ** The derivative matcher decides the words of a regular expression *)
Section ReFacts.

Lemma Matches_Void_inv s : Matches Void s -> False.
Proof. inversion 1. Qed.

Lemma Matches_Eps_inv s : Matches Eps s -> s = "".
Proof. by inversion 1. Qed.

Lemma Matches_Class_inv rs s :
  Matches (Class rs) s -> exists c, s = String c "" /\ in_class rs c = true.
Proof. inversion 1; eauto. Qed.

Lemma Matches_Cat_inv r1 r2 s :
  Matches (Cat r1 r2) s ->
  exists s1 s2, s = s1 +:+ s2 /\ Matches r1 s1 /\ Matches r2 s2.
Proof. inversion 1; eauto. Qed.

Lemma Matches_Alt_inv r1 r2 s :
  Matches (Alt r1 r2) s -> Matches r1 s \/ Matches r2 s.
Proof. inversion 1; eauto. Qed.

Lemma nullable_Matches r : nullable r = true -> Matches r "".
Proof.
  induction r as [| |rs|r1 IH1 r2 IH2|r1 IH1 r2 IH2|r IH]; simpl; intros H;
    try discriminate.
  - constructor.
  - apply andb_true_iff in H as [H1 H2].
    change "" with ("" +:+ ""). constructor; auto.
  - apply orb_true_iff in H as [H|H]; [apply MAltL | apply MAltR]; auto.
  - constructor.
Qed.

Lemma Matches_nullable r s : Matches r s -> s = "" -> nullable r = true.
Proof.
  induction 1 as [|rs c Hc|r1 r2 s1 s2 _ IH1 _ IH2|r1 r2 s _ IH|r1 r2 s _ IH
                 |r|r s1 s2 _ _ _ _]; intros Hs; simpl; try done.
  - apply app_eq_nil in Hs as [-> ->]. by rewrite IH1, IH2.
  - by rewrite IH.
  - rewrite IH by done. apply orb_true_r.
Qed.

Lemma nullable_spec r : nullable r = true <-> Matches r "".
Proof. split; [apply nullable_Matches | intros H; by eapply Matches_nullable]. Qed.

Lemma deriv_sound c r : forall s, Matches (deriv c r) s -> Matches r (String c s).
Proof.
  induction r as [| |rs|r1 IH1 r2 IH2|r1 IH1 r2 IH2|r IH]; simpl; intros s H.
  - by apply Matches_Void_inv in H.
  - by apply Matches_Void_inv in H.
  - destruct (in_class rs c) eqn:Hc.
    + apply Matches_Eps_inv in H as ->. by constructor.
    + by apply Matches_Void_inv in H.
  - assert (forall t, Matches (Cat (deriv c r1) r2) t -> Matches (Cat r1 r2) (String c t))
      as Hcat.
    { intros t Ht. apply Matches_Cat_inv in Ht as (s1 & s2 & -> & H1 & H2).
      rewrite <- app_cons. constructor; auto. }
    destruct (nullable r1) eqn:Hn; [|by apply Hcat].
    apply Matches_Alt_inv in H as [H|H]; [by apply Hcat|].
    rewrite <- (app_nil_l (String c s)).
    constructor; [by apply nullable_Matches | auto].
  - apply Matches_Alt_inv in H as [H|H]; [apply MAltL | apply MAltR]; auto.
  - apply Matches_Cat_inv in H as (s1 & s2 & -> & H1 & H2).
    rewrite <- app_cons. constructor; auto.
Qed.

Lemma deriv_complete c r t :
  Matches r t -> forall s, t = String c s -> Matches (deriv c r) s.
Proof.
  induction 1 as [|rs c' Hc|r1 r2 s1 s2 H1 IH1 H2 IH2|r1 r2 s0 _ IH|r1 r2 s0 _ IH
                 |r|r s1 s2 H1 IH1 H2 IH2]; intros s Hs; simpl; try done.
  - injection Hs as -> <-. rewrite Hc. constructor.
  - destruct s1 as [|c1 s1].
    + rewrite app_nil_l in Hs.
      rewrite (Matches_nullable r1 "" H1 eq_refl). apply MAltR. auto.
    + rewrite app_cons in Hs. injection Hs as -> <-.
      assert (Matches (Cat (deriv c r1) r2) (s1 +:+ s2)) by (constructor; auto).
      destruct (nullable r1); [by apply MAltL | done].
  - apply MAltL; auto.
  - apply MAltR; auto.
  - destruct s1 as [|c1 s1].
    + rewrite app_nil_l in Hs. apply (IH2 s Hs).
    + rewrite app_cons in Hs. injection Hs as -> <-.
      constructor; auto.
Qed.

Lemma deriv_spec c r s : Matches (deriv c r) s <-> Matches r (String c s).
Proof. split; [apply deriv_sound | intros H; by eapply deriv_complete]. Qed.

Theorem fullmatch_spec r s : fullmatch r s = true <-> Matches r s.
Proof.
  revert r. induction s as [|c s IH]; intros r; simpl.
  - apply nullable_spec.
  - rewrite IH. apply deriv_spec.
Qed.

Lemma Matches_Star_Class rs s :
  Matches (Star (Class rs)) s <-> all_chars (in_class rs) s = true.
Proof.
  split.
  - intros H. remember (Star (Class rs)) as r eqn:Hr.
    induction H as [| | | | | |r s1 s2 H1 _ H2 IH2]; try discriminate; [done|].
    injection Hr as ->.
    apply Matches_Class_inv in H1 as (c & -> & Hc).
    rewrite app_cons, app_nil_l. simpl. rewrite Hc. by apply IH2.
  - induction s as [|c s IH]; simpl; intros H; [constructor|].
    apply andb_true_iff in H as [Hc Hs].
    change (String c s) with (String c "" +:+ s).
    constructor; [by constructor | auto].
Qed.

Lemma Matches_Plus_Class rs s :
  Matches (Plus (Class rs)) s <-> s <> "" /\ all_chars (in_class rs) s = true.
Proof.
  unfold Plus. split.
  - intros H. apply Matches_Cat_inv in H as (s1 & s2 & -> & H1 & H2).
    apply Matches_Class_inv in H1 as (c & -> & Hc).
    apply Matches_Star_Class in H2.
    rewrite app_cons, app_nil_l. simpl. by rewrite Hc, H2.
  - intros [Hne H]. destruct s as [|c s]; [done|]. simpl in H.
    apply andb_true_iff in H as [Hc Hs].
    change (String c s) with (String c "" +:+ s).
    constructor; [by constructor | by apply Matches_Star_Class].
Qed.

Lemma Matches_AtLeast2_Class rs s :
  Matches (AtLeast2 (Class rs)) s <->
  2 <= String.length s /\ all_chars (in_class rs) s = true.
Proof.
  unfold AtLeast2. split.
  - intros H. apply Matches_Cat_inv in H as (s1 & s2 & -> & H1 & H2).
    apply Matches_Class_inv in H1 as (c & -> & Hc).
    apply (Matches_Plus_Class rs s2) in H2 as [Hne H2].
    rewrite app_cons, app_nil_l. simpl. rewrite Hc, H2.
    destruct s2; [done|]. simpl. split; [lia|done].
  - intros [Hlen H]. destruct s as [|c s]; [simpl in Hlen; lia|]. simpl in H.
    apply andb_true_iff in H as [Hc Hs].
    change (String c s) with (String c "" +:+ s).
    constructor; [by constructor|].
    apply (Matches_Plus_Class rs s). split; [|done].
    destruct s; [simpl in Hlen; lia | done].
Qed.

Lemma ord_inj c1 c2 : ord c1 = ord c2 -> c1 = c2.
Proof.
  unfold ord. intros H.
  by rewrite <- (ascii_N_embedding c1), <- (ascii_N_embedding c2), H.
Qed.

Lemma Matches_Chr c s : Matches (Chr c) s <-> s = String c "".
Proof.
  unfold Chr. split.
  - intros H. apply Matches_Class_inv in H as (c' & -> & Hc).
    unfold in_class, between in Hc. simpl in Hc.
    rewrite orb_false_r in Hc. apply andb_true_iff in Hc as [H1 H2].
    apply N.leb_le in H1, H2. f_equal. apply ord_inj. lia.
  - intros ->. constructor. unfold in_class, between. simpl.
    by rewrite N.leb_refl.
Qed.

End ReFacts.

(** ** The email pattern and its documented shape *)
Section EmailFacts.

Lemma all_chars_ext p q s :
  (forall c, p c = q c) -> all_chars p s = all_chars q s.
Proof. intros H. induction s as [|c s IH]; simpl; [done|]. by rewrite H, IH. Qed.

Ltac by_cases_on_char c :=
  destruct c as [[] [] [] [] [] [] [] []]; reflexivity.

Lemma local_class_spec c : in_class local_class c = local_char c.
Proof. by_cases_on_char c. Qed.

Lemma domain_class_spec c : in_class domain_class c = domain_char c.
Proof. by_cases_on_char c. Qed.

Lemma letter_class_spec c : in_class letter_class c = isalpha c.
Proof. by_cases_on_char c. Qed.

Theorem email_pattern_spec s : Matches email_pattern s <-> documented_email s.
Proof.
  unfold email_pattern, documented_email. split.
  - intros H.
    apply Matches_Cat_inv in H as (l & s1 & -> & Hl & H).
    apply Matches_Cat_inv in H as (a & s2 & -> & Ha & H).
    apply Matches_Cat_inv in H as (d & s3 & -> & Hd & H).
    apply Matches_Cat_inv in H as (o & t & -> & Ho & Ht).
    apply Matches_Chr in Ha as ->. apply Matches_Chr in Ho as ->.
    apply Matches_Plus_Class in Hl as [Hl1 Hl2].
    apply Matches_Plus_Class in Hd as [Hd1 Hd2].
    apply Matches_AtLeast2_Class in Ht as [Ht1 Ht2].
    exists l, d, t.
    rewrite <- (all_chars_ext _ _ l local_class_spec).
    rewrite <- (all_chars_ext _ _ d domain_class_spec).
    rewrite <- (all_chars_ext _ _ t letter_class_spec).
    done.
  - intros (l & d & t & -> & Hl1 & Hl2 & Hd1 & Hd2 & Ht1 & Ht2).
    rewrite <- (all_chars_ext _ _ l local_class_spec) in Hl2.
    rewrite <- (all_chars_ext _ _ d domain_class_spec) in Hd2.
    rewrite <- (all_chars_ext _ _ t letter_class_spec) in Ht2.
    constructor; [by apply Matches_Plus_Class|].
    constructor; [by apply Matches_Chr|].
    constructor; [by apply Matches_Plus_Class|].
    constructor; [by apply Matches_Chr|].
    by apply Matches_AtLeast2_Class.
Qed.

(** The last character of a string, for the [$] anchor. *)
Fixpoint last_char (s : string) : option ascii :=
  match s with
  | EmptyString => None
  | String c EmptyString => Some c
  | String _ s' => last_char s'
  end.

Lemma chop_newline_last s t :
  chop_newline s = Some t -> last_char s = Some "010"%char.
Proof.
  revert t. induction s as [|c s IH]; intros t; [done|].
  destruct s as [|c' s'].
  - simpl. destruct (Ascii.eqb c "010") eqn:Hc; [|done].
    apply Ascii.eqb_eq in Hc as ->. done.
  - change (chop_newline (String c (String c' s')))
      with (String c <$> chop_newline (String c' s')).
    change (last_char (String c (String c' s'))) with (last_char (String c' s')).
    destruct (chop_newline (String c' s')) eqn:E; [|done]. intros _. by eapply IH.
Qed.

Lemma last_char_rstrip s c : last_char (rstrip s) = Some c -> isspace c = false.
Proof.
  induction s as [|c0 s IH]; [done|]. simpl.
  destruct (rstrip s) as [|c1 r] eqn:E; simpl.
  - rewrite andb_true_r. destruct (isspace c0) eqn:H0; simpl; [done|].
    intros [= <-]. done.
  - rewrite andb_false_r. simpl. exact IH.
Qed.

Lemma last_char_lstrip s c : last_char (lstrip s) = Some c -> last_char s = Some c.
Proof.
  induction s as [|c0 s IH]; [done|]. simpl lstrip.
  destruct (isspace c0); [|done].
  intros H. specialize (IH H). destruct s; [done|]. exact IH.
Qed.

Lemma last_char_lower s : last_char (lower s) = lower_char <$> last_char s.
Proof.
  induction s as [|c s IH]; [done|].
  destruct s as [|c' s']; [done|]. exact IH.
Qed.

Lemma lower_char_newline c : lower_char c = "010"%char -> c = "010"%char.
Proof. destruct c as [[] [] [] [] [] [] [] []]; vm_compute; congruence. Qed.

(** After [strip] and [lower] no newline ends the string, so the [$]
    anchor only matches at the very end. *)
Lemma chop_newline_normalized s : chop_newline (lower (strip s)) = None.
Proof.
  destruct (chop_newline (lower (strip s))) as [t|] eqn:E; [|done].
  apply chop_newline_last in E. rewrite last_char_lower in E.
  destruct (last_char (strip s)) as [c|] eqn:Hl; [|done].
  injection E as E. apply lower_char_newline in E. subst c.
  apply last_char_lstrip, last_char_rstrip in Hl. done.
Qed.

Lemma match_anchored_normalized s :
  match_anchored email_pattern (lower (strip s)) = true <->
  documented_email (lower (strip s)).
Proof.
  unfold match_anchored. rewrite chop_newline_normalized, orb_false_r.
  rewrite fullmatch_spec. apply email_pattern_spec.
Qed.

End EmailFacts.

(** ** The validators, field by field *)
Section ValidatorFacts.

Implicit Types (data errors : gmap string string) (k : string).

Lemma lookup_rule2_ne k k' (b1 b2 : bool) (v1 v2 : string) errors :
  k' <> k ->
  (if b1 then <[k' := v1]> errors
   else if b2 then <[k' := v2]> errors else errors) !! k = errors !! k.
Proof. intros. destruct b1, b2; by rewrite ?lookup_insert_ne. Qed.

Lemma lookup_rule3_ne k k' (b1 b2 b3 : bool) (v1 v2 v3 : string) errors :
  k' <> k ->
  (if b1 then <[k' := v1]> errors
   else if b2 then <[k' := v2]> errors
   else if b3 then <[k' := v3]> errors else errors) !! k = errors !! k.
Proof. intros. destruct b1, b2, b3; by rewrite ?lookup_insert_ne. Qed.

Lemma lookup_rule2_eq k (b1 b2 : bool) (v1 v2 : string) errors :
  (if b1 then <[k := v1]> errors
   else if b2 then <[k := v2]> errors else errors) !! k
  = if b1 then Some v1 else if b2 then Some v2 else errors !! k.
Proof. destruct b1, b2; by rewrite ?lookup_insert_eq. Qed.

Lemma lookup_rule3_eq k (b1 b2 b3 : bool) (v1 v2 v3 : string) errors :
  (if b1 then <[k := v1]> errors
   else if b2 then <[k := v2]> errors
   else if b3 then <[k := v3]> errors else errors) !! k
  = if b1 then Some v1 else if b2 then Some v2
    else if b3 then Some v3 else errors !! k.
Proof. destruct b1, b2, b3; by rewrite ?lookup_insert_eq. Qed.

(** The error each rule leaves for its field, given the raw field value. *)
Definition name_error (label : string) (raw : string) : option string :=
  let name := strip raw in
  if negb (truthy name) then Some (label +:+ " is required")
  else if (len name <? 2)%Z then
    Some (label +:+ " must be at least 2 characters long")
  else None.

Definition email_error (raw : string) : option string :=
  let email := lower (strip raw) in
  if negb (truthy email) then Some "Email is required"
  else if negb (match_anchored email_pattern email) then
    Some "Must be a valid email format"
  else None.

Definition phone_error (raw : string) : option string :=
  let phone := strip raw in
  let phone_digits := re_sub_nondigits phone in
  if negb (truthy phone) then Some "Phone number is required"
  else if (len phone_digits <? 10)%Z || (len phone_digits >? 15)%Z then
    Some "Phone must contain 10 to 15 digits only"
  else if negb (isdigit phone_digits) then Some "Phone must contain digits only"
  else None.

Definition password_error (raw : string) : option string :=
  if negb (truthy raw) then Some "Password is required"
  else if (len raw <? 6)%Z then
    Some "Password must be at least 6 characters long"
  else None.

Definition confirm_error (password raw : string) : option string :=
  if negb (truthy raw) then Some "Confirm Password is required"
  else if negb (String.eqb password raw) then Some "Passwords do not match"
  else None.

Ltac rule_lookup :=
  repeat first
    [ rewrite lookup_rule3_ne by done
    | rewrite lookup_rule2_ne by done
    | rewrite lookup_rule3_eq
    | rewrite lookup_rule2_eq
    | rewrite lookup_empty ].

Lemma registration_fullName data :
  validate_registration_data data !! "fullName"
  = name_error "Full Name" (get data "fullName").
Proof.
  unfold validate_registration_data, name_error. cbv zeta. by rule_lookup.
Qed.

Lemma registration_email data :
  validate_registration_data data !! "email" = email_error (get data "email").
Proof.
  unfold validate_registration_data, email_error. cbv zeta. by rule_lookup.
Qed.

Lemma registration_phone data :
  validate_registration_data data !! "phone" = phone_error (get data "phone").
Proof.
  unfold validate_registration_data, phone_error. cbv zeta. by rule_lookup.
Qed.

Lemma registration_password data :
  validate_registration_data data !! "password"
  = password_error (get data "password").
Proof.
  unfold validate_registration_data, password_error. cbv zeta. by rule_lookup.
Qed.

Lemma registration_confirm data :
  validate_registration_data data !! "confirmPassword"
  = confirm_error (get data "password") (get data "confirmPassword").
Proof.
  unfold validate_registration_data, confirm_error. cbv zeta. by rule_lookup.
Qed.

Lemma registration_other data k :
  k ∉ ["fullName"; "email"; "phone"; "password"; "confirmPassword"] ->
  validate_registration_data data !! k = None.
Proof.
  intros Hk. rewrite !not_elem_of_cons in Hk. destruct Hk as (?&?&?&?&?&_).
  unfold validate_registration_data. cbv zeta. by rule_lookup.
Qed.

Lemma auth_name data :
  validate_auth_data data false !! "name" = name_error "Name" (get data "name").
Proof.
  unfold validate_auth_data, name_error. cbv zeta. simpl negb. cbv iota.
  by rule_lookup.
Qed.

Lemma auth_name_login data : validate_auth_data data true !! "name" = None.
Proof.
  unfold validate_auth_data. cbv zeta. simpl negb. cbv iota. by rule_lookup.
Qed.

Lemma auth_email data is_login :
  validate_auth_data data is_login !! "email" = email_error (get data "email").
Proof.
  unfold validate_auth_data, email_error. cbv zeta.
  destruct is_login; simpl negb; cbv iota; by rule_lookup.
Qed.

Lemma auth_password data is_login :
  validate_auth_data data is_login !! "password"
  = password_error (get data "password").
Proof.
  unfold validate_auth_data, password_error. cbv zeta.
  destruct is_login; simpl negb; cbv iota; by rule_lookup.
Qed.

Lemma auth_other data is_login k :
  k ∉ ["name"; "email"; "password"] ->
  validate_auth_data data is_login !! k = None.
Proof.
  intros Hk. rewrite !not_elem_of_cons in Hk. destruct Hk as (?&?&?&_).
  unfold validate_auth_data. cbv zeta.
  destruct is_login; simpl negb; cbv iota; by rule_lookup.
Qed.

End ValidatorFacts.

(** ** Claims about the validators *)
Section ValidatorClaims.

Implicit Types (data : gmap string string).

Lemma get_insert data k v : get (<[k := v]> data) k = v.
Proof. unfold get. by rewrite lookup_insert_eq. Qed.

Lemma get_alter_eq data k : get (alter strip k data) k = strip (get data k).
Proof. unfold get. rewrite lookup_alter_eq. by destruct (data !! k). Qed.

Lemma get_alter_ne data k k' : k <> k' -> get (alter strip k data) k' = get data k'.
Proof. intros. unfold get. by rewrite lookup_alter_ne. Qed.

Lemma not_documented_empty : ~ documented_email "".
Proof.
  intros (l & d & t & H & Hl & _). symmetry in H.
  apply app_eq_nil in H as [-> _]. done.
Qed.

Lemma email_error_spec raw :
  is_Some (email_error raw) <-> ~ documented_email (lower (strip raw)).
Proof.
  unfold email_error. cbv zeta.
  destruct (truthy (lower (strip raw))) eqn:Ht; simpl.
  - rewrite <- match_anchored_normalized.
    destruct (match_anchored email_pattern (lower (strip raw))); simpl.
    + split; [intros [? [=]] | intros H; by destruct H].
    + split; [intros _ [=] | eauto].
  - apply truthy_false in Ht as ->. split; [intros _; apply not_documented_empty | eauto].
Qed.

(** C3: an email field error is emitted exactly when the trimmed,
    lower-cased address does not have the documented shape
    [local@domain.tld]; this holds for both validators, [a@b.co] is
    accepted, and [a@b] and [@b.com] are rejected. *)
Theorem C3_email_rejected_iff_pattern_fails :
  (forall data is_login E,
     is_Some (validate_auth_data (<["email" := E]> data) is_login !! "email")
     <-> ~ documented_email (lower (strip E))) /\
  (forall data E,
     is_Some (validate_registration_data (<["email" := E]> data) !! "email")
     <-> ~ documented_email (lower (strip E))) /\
  validate_auth_data {[ "email" := "a@b.co" ]} true !! "email" = None /\
  validate_auth_data {[ "email" := "a@b" ]} true !! "email"
    = Some "Must be a valid email format" /\
  validate_auth_data {[ "email" := "@b.com" ]} true !! "email"
    = Some "Must be a valid email format" /\
  validate_registration_data {[ "email" := "a@b.co" ]} !! "email" = None /\
  validate_registration_data {[ "email" := "a@b" ]} !! "email"
    = Some "Must be a valid email format" /\
  validate_registration_data {[ "email" := "@b.com" ]} !! "email"
    = Some "Must be a valid email format".
Proof.
  split; [|split].
  - intros data is_login E. rewrite auth_email, get_insert. apply email_error_spec.
  - intros data E. rewrite registration_email, get_insert. apply email_error_spec.
  - rewrite !auth_email, !registration_email. repeat split; reflexivity.
Qed.

Lemma phone_error_spec raw : phone_error raw = None <-> documented_phone raw.
Proof.
  unfold phone_error, documented_phone. cbv zeta.
  rewrite digits_strip. unfold len.
  change (filter_chars isdecimal raw) with (re_sub_nondigits raw).
  destruct (truthy (strip raw)) eqn:Ht; simpl.
  - apply truthy_true in Ht.
    destruct (Z.ltb_spec (Z.of_nat (String.length (re_sub_nondigits raw))) 10);
      simpl; [split; [done | lia]|].
    destruct (Z.gtb_spec (Z.of_nat (String.length (re_sub_nondigits raw))) 15);
      simpl; [split; [done | lia]|].
    rewrite (isdigit_digits raw); simpl.
    + split; [intros _; split; [done | lia] | done].
    + destruct (re_sub_nondigits raw); [simpl in *; lia | done].
  - apply truthy_false in Ht. split; [done | intros [? _]; done].
Qed.

(** C4: registration validation accepts a phone value exactly when it is
    non-empty after trimming and keeps between 10 and 15 digits once every
    non-digit character is deleted; [123-456-7890] is accepted, [12345] and
    [abcdefghij] are rejected. *)
Theorem C4_phone_accepted_iff_digit_count :
  (forall data P,
     validate_registration_data (<["phone" := P]> data) !! "phone" = None
     <-> documented_phone P) /\
  validate_registration_data {[ "phone" := "123-456-7890" ]} !! "phone" = None /\
  validate_registration_data {[ "phone" := "12345" ]} !! "phone"
    = Some "Phone must contain 10 to 15 digits only" /\
  validate_registration_data {[ "phone" := "abcdefghij" ]} !! "phone"
    = Some "Phone must contain 10 to 15 digits only".
Proof.
  split.
  - intros data P. rewrite registration_phone, get_insert. apply phone_error_spec.
  - rewrite !registration_phone. repeat split; reflexivity.
Qed.

Lemma phone_error_cases raw :
  phone_error raw = None \/
  phone_error raw = Some "Phone number is required" \/
  phone_error raw = Some "Phone must contain 10 to 15 digits only".
Proof.
  unfold phone_error. cbv zeta.
  destruct (truthy (strip raw)); simpl; [|by auto].
  destruct (Z.ltb_spec (len (re_sub_nondigits (strip raw))) 10); simpl; [by auto|].
  destruct (Z.gtb_spec (len (re_sub_nondigits (strip raw))) 15); simpl; [by auto|].
  rewrite isdigit_digits; [by auto|].
  destruct (re_sub_nondigits (strip raw)); [unfold len in *; simpl in *; lia | done].
Qed.

(** C10: the branch reporting "Phone must contain digits only" is never
    taken: a digit-only extraction of 10 to 15 characters always passes
    [isdigit], so the phone field carries no error, the required-field
    error or the 10-to-15-digits error. *)
Theorem C10_digits_only_branch_unreachable :
  (forall s : string,
     (10 <= len (re_sub_nondigits s) <= 15)%Z ->
     isdigit (re_sub_nondigits s) = true) /\
  (forall data,
     validate_registration_data data !! "phone"
       <> Some "Phone must contain digits only") /\
  (forall data,
     validate_registration_data data !! "phone" = None \/
     validate_registration_data data !! "phone" = Some "Phone number is required" \/
     validate_registration_data data !! "phone"
       = Some "Phone must contain 10 to 15 digits only").
Proof.
  split; [|split].
  - intros s Hs. apply isdigit_digits.
    destruct (re_sub_nondigits s); [unfold len in Hs; simpl in Hs; lia | done].
  - intros data. rewrite registration_phone.
    destruct (phone_error_cases (get data "phone")) as [-> | [-> | ->]]; done.
  - intros data. rewrite registration_phone. apply phone_error_cases.
Qed.

End ValidatorClaims.

(** ** Trimming: which fields are trimmed and which are not *)
Section Trimming.

Implicit Types (data : gmap string string).

(** A registration whose confirmation differs from the password by one
    leading blank, and a login whose password has three characters between
    blanks. *)
Definition padded_registration : gmap string string :=
  {[ "fullName" := "Al"; "email" := "a@b.co"; "phone" := "123-456-7890";
     "password" := "abcdef"; "confirmPassword" := " abcdef" ]}.

Definition padded_login : gmap string string :=
  {[ "email" := "a@b.co"; "password" := "  abc  " ]}.

(** C2, refuted as stated: the validators do not judge [password] and
    [confirmPassword] on their trimmed forms. A confirmation equal to the
    password up to a leading blank is reported as a mismatch although the
    trimmed mapping is valid, and a three-character password padded with
    blanks passes the length rule although its trimmed form does not. *)
Lemma C2_password_fields_not_trimmed :
  validate_registration_data padded_registration
    = {[ "confirmPassword" := "Passwords do not match" ]} /\
  validate_registration_data (trim_all padded_registration) = ∅ /\
  validate_auth_data padded_login true = ∅ /\
  validate_auth_data (trim_all padded_login) true
    = {[ "password" := "Password must be at least 6 characters long" ]} /\
  ~ (forall data,
       validate_registration_data data = validate_registration_data (trim_all data)) /\
  ~ (forall data is_login,
       validate_auth_data data is_login = validate_auth_data (trim_all data) is_login).
Proof.
  assert (validate_registration_data padded_registration
          = {[ "confirmPassword" := "Passwords do not match" ]}) as H1
    by (vm_compute; reflexivity).
  assert (validate_registration_data (trim_all padded_registration) = ∅) as H2
    by (vm_compute; reflexivity).
  assert (validate_auth_data padded_login true = ∅) as H3
    by (vm_compute; reflexivity).
  assert (validate_auth_data (trim_all padded_login) true
          = {[ "password" := "Password must be at least 6 characters long" ]}) as H4
    by (vm_compute; reflexivity).
  repeat split; try assumption.
  - intros H. specialize (H padded_registration). rewrite H1, H2 in H.
    apply (f_equal (fun m => m !! "confirmPassword")) in H.
    rewrite lookup_singleton_eq, lookup_empty in H. discriminate.
  - intros H. specialize (H padded_login true). rewrite H3, H4 in H.
    apply (f_equal (fun m => m !! "password")) in H.
    rewrite lookup_singleton_eq, lookup_empty in H. discriminate.
Qed.

Lemma name_error_strip label raw : name_error label (strip raw) = name_error label raw.
Proof. unfold name_error. by rewrite strip_idem. Qed.

Lemma email_error_strip raw : email_error (strip raw) = email_error raw.
Proof. unfold email_error. by rewrite strip_idem. Qed.

Lemma phone_error_strip raw : phone_error (strip raw) = phone_error raw.
Proof. unfold phone_error. by rewrite strip_idem. Qed.

Lemma password_error_spec raw : password_error raw = None <-> (6 <= len raw)%Z.
Proof.
  unfold password_error. destruct (truthy raw) eqn:Ht; simpl negb; cbv iota.
  - destruct (Z.ltb_spec (len raw) 6); split; intros; first [done | lia].
  - apply truthy_false in Ht as ->. unfold len. simpl. split; [done | lia].
Qed.

Lemma confirm_error_spec password raw :
  confirm_error password raw = None <-> raw <> "" /\ raw = password.
Proof.
  unfold confirm_error. destruct raw as [|c s]; simpl; [split; [done | intros []; done]|].
  destruct (String.eqb_spec password (String c s)) as [->|Hne]; simpl.
  - split; done.
  - split; [done | intros [_ ?]; congruence].
Qed.

Lemma get_trim_fields_in keys data k :
  k ∈ keys -> get (trim_fields keys data) k = strip (get data k).
Proof.
  unfold trim_fields. induction keys as [|k0 keys IH]; simpl; intros Hk.
  - by apply elem_of_nil in Hk.
  - destruct (decide (k0 = k)) as [->|Hne].
    + rewrite get_alter_eq. destruct (decide (k ∈ keys)) as [Hin|Hout].
      * by rewrite IH, strip_idem.
      * clear IH Hk. f_equal. induction keys as [|k1 keys IH]; simpl; [done|].
        apply not_elem_of_cons in Hout as [? ?]. rewrite get_alter_ne by done. auto.
    + rewrite get_alter_ne by done. apply IH.
      apply elem_of_cons in Hk as [?|?]; [congruence | done].
Qed.

Lemma get_trim_fields_out keys data k :
  k ∉ keys -> get (trim_fields keys data) k = get data k.
Proof.
  unfold trim_fields. induction keys as [|k0 keys IH]; simpl; intros Hk; [done|].
  apply not_elem_of_cons in Hk as [? ?]. rewrite get_alter_ne by done. auto.
Qed.

Ltac field_in := rewrite !elem_of_cons; auto.
Ltac field_out := rewrite !not_elem_of_cons, elem_of_nil; naive_solver.

(** C2, amended: both validators trim the name, email and phone fields
    before applying their rules, so their verdict does not change when
    those fields are trimmed beforehand; [password] and [confirmPassword]
    are judged untrimmed: the length rule counts every character of the
    value as sent, and the confirmation has to be non-empty and equal to
    the password character for character. *)
Theorem C2_trimmed_fields_and_raw_passwords :
  (forall data,
     validate_registration_data data
     = validate_registration_data (trim_fields ["fullName"; "email"; "phone"] data)) /\
  (forall data is_login,
     validate_auth_data data is_login
     = validate_auth_data (trim_fields ["name"; "email"] data) is_login) /\
  (forall data is_login,
     validate_auth_data data is_login !! "password" = None
     <-> (6 <= len (get data "password"))%Z) /\
  (forall data,
     validate_registration_data data !! "password" = None
     <-> (6 <= len (get data "password"))%Z) /\
  (forall data,
     validate_registration_data data !! "confirmPassword" = None
     <-> get data "confirmPassword" <> "" /\
         get data "confirmPassword" = get data "password").
Proof.
  split; [|split; [|split; [|split]]].
  - intros data. apply map_eq. intros k.
    destruct (decide (k = "fullName")) as [->|].
    { rewrite !registration_fullName, get_trim_fields_in by field_in.
      by rewrite name_error_strip. }
    destruct (decide (k = "email")) as [->|].
    { rewrite !registration_email, get_trim_fields_in by field_in.
      by rewrite email_error_strip. }
    destruct (decide (k = "phone")) as [->|].
    { rewrite !registration_phone, get_trim_fields_in by field_in.
      by rewrite phone_error_strip. }
    destruct (decide (k = "password")) as [->|].
    { rewrite !registration_password. by rewrite get_trim_fields_out by field_out. }
    destruct (decide (k = "confirmPassword")) as [->|].
    { rewrite !registration_confirm. by rewrite !get_trim_fields_out by field_out. }
    rewrite !registration_other; [done | field_out | field_out].
  - intros data is_login. apply map_eq. intros k.
    destruct (decide (k = "name")) as [->|].
    { destruct is_login; [by rewrite !auth_name_login|].
      rewrite !auth_name, get_trim_fields_in by field_in.
      by rewrite name_error_strip. }
    destruct (decide (k = "email")) as [->|].
    { rewrite !auth_email, get_trim_fields_in by field_in.
      by rewrite email_error_strip. }
    destruct (decide (k = "password")) as [->|].
    { rewrite !auth_password. by rewrite get_trim_fields_out by field_out. }
    rewrite !auth_other; [done | field_out | field_out].
  - intros data is_login. rewrite auth_password. apply password_error_spec.
  - intros data. rewrite registration_password. apply password_error_spec.
  - intros data. rewrite registration_confirm. apply confirm_error_spec.
Qed.

End Trimming.

(** * Sample implementations of the library interfaces

    They close the concrete examples below; the general results hold for
    every implementation of the interfaces. *)
Module Sample.
Import Lib.

(** ** A token format: four fields and a keyed digest

    A field writes each character as eight binary digits and ends with a
    dot, so a token consists of the characters [0], [1] and [.] only. *)
Definition bit (b : bool) : ascii := if b then "1"%char else "0"%char.

Definition unbit (c : ascii) : option bool :=
  if Ascii.eqb c "1" then Some true
  else if Ascii.eqb c "0" then Some false
  else None.

Fixpoint field (s : string) : string :=
  match s with
  | EmptyString => "."
  | String (Ascii b0 b1 b2 b3 b4 b5 b6 b7) s' =>
      String (bit b0) (String (bit b1) (String (bit b2) (String (bit b3)
        (String (bit b4) (String (bit b5) (String (bit b6) (String (bit b7)
          (field s'))))))))
  end.

Fixpoint unfield (t : string) : option (string * string) :=
  match t with
  | String c0 t0 =>
      if Ascii.eqb c0 "." then Some (EmptyString, t0)
      else
        match t0 with
        | String c1 (String c2 (String c3 (String c4 (String c5
            (String c6 (String c7 t')))))) =>
            b0 ← unbit c0; b1 ← unbit c1; b2 ← unbit c2; b3 ← unbit c3;
            b4 ← unbit c4; b5 ← unbit c5; b6 ← unbit c6; b7 ← unbit c7;
            '(s, rest) ← unfield t';
            Some (String (Ascii b0 b1 b2 b3 b4 b5 b6 b7) s, rest)
        | _ => None
        end
  | EmptyString => None
  end.

Definition Z_to_string (z : Z) : string :=
  DecimalString.NilEmpty.string_of_int (Z.to_int z).

Definition Z_of_string (s : string) : option Z :=
  Z.of_int <$> DecimalString.NilEmpty.int_of_string s.

Definition alg_name (a : algorithm) : string :=
  match a with
  | HS256 => "HS256"
  | HS384 => "HS384"
  | HS512 => "HS512"
  end.

Definition alg_of_name (s : string) : option algorithm :=
  if String.eqb s "HS256" then Some HS256
  else if String.eqb s "HS384" then Some HS384
  else if String.eqb s "HS512" then Some HS512
  else None.

(** The signed part of a token. *)
Definition signing_input (payload : Claims) (alg : algorithm) : string :=
  field (alg_name alg) +:+ field (claim_user_id payload)
  +:+ field (claim_email payload) +:+ field (Z_to_string (claim_exp payload)).

(** A stand-in for the HMAC: any function of the key and the signed part
    supports the same verification by recomputation. *)
Definition digest (key message : string) : string :=
  field (key +:+ message).

Definition encode (payload : Claims) (key : string) (alg : algorithm) : string :=
  signing_input payload alg +:+ digest key (signing_input payload alg).

Definition parse (token : string) : option (algorithm * Claims * string) :=
  '(a, t1) ← unfield token;
  '(uid, t2) ← unfield t1;
  '(email, t3) ← unfield t2;
  '(e, signature) ← unfield t3;
  alg ← alg_of_name a;
  exp ← Z_of_string e;
  Some (alg, {| claim_user_id := uid; claim_email := email; claim_exp := exp |},
        signature).

Definition decode (token key : string) (algs : list algorithm) (now : Z)
  : decoded :=
  match parse token with
  | Some (alg, payload, signature) =>
      if bool_decide (alg ∈ algs)
         && String.eqb signature (digest key (signing_input payload alg))
      then if (claim_exp payload <? now)%Z then ExpiredSignatureError
           else Decoded payload
      else InvalidTokenError
  | None => InvalidTokenError
  end.

Lemma unfield_field s rest : unfield (field s +:+ rest) = Some (s, rest).
Proof.
  induction s as [|c s IH]; [done|].
  destruct c as [b0 b1 b2 b3 b4 b5 b6 b7].
  change (unfield (field (String (Ascii b0 b1 b2 b3 b4 b5 b6 b7) s) +:+ rest))
    with (if Ascii.eqb (bit b0) "." then Some (EmptyString, String (bit b1)
            (String (bit b2) (String (bit b3) (String (bit b4) (String (bit b5)
              (String (bit b6) (String (bit b7) (field s +:+ rest))))))))
          else
            b0' ← unbit (bit b0); b1' ← unbit (bit b1); b2' ← unbit (bit b2);
            b3' ← unbit (bit b3); b4' ← unbit (bit b4); b5' ← unbit (bit b5);
            b6' ← unbit (bit b6); b7' ← unbit (bit b7);
            '(s', r) ← unfield (field s +:+ rest);
            Some (String (Ascii b0' b1' b2' b3' b4' b5' b6' b7') s', r)).
  rewrite IH. by destruct b0, b1, b2, b3, b4, b5, b6, b7.
Qed.

Lemma Z_of_to_string z : Z_of_string (Z_to_string z) = Some z.
Proof.
  unfold Z_of_string, Z_to_string.
  rewrite DecimalString.NilEmpty.isi. simpl. by rewrite DecimalZ.of_to.
Qed.

Lemma alg_of_alg_name a : alg_of_name (alg_name a) = Some a.
Proof. by destruct a. Qed.

Lemma parse_encode payload key alg :
  parse (encode payload key alg)
  = Some (alg, payload, digest key (signing_input payload alg)).
Proof.
  unfold parse, encode. unfold signing_input at 1. rewrite !app_assoc.
  rewrite unfield_field. simpl. rewrite unfield_field. simpl.
  rewrite unfield_field. simpl. rewrite unfield_field. simpl.
  rewrite alg_of_alg_name. simpl. rewrite Z_of_to_string. simpl.
  by destruct payload.
Qed.

Lemma decode_encode payload key alg algs now :
  alg ∈ algs ->
  decode (encode payload key alg) key algs now
  = if (claim_exp payload <? now)%Z then ExpiredSignatureError
    else Decoded payload.
Proof.
  intros Halg. unfold decode. rewrite parse_encode.
  rewrite bool_decide_true by done. by rewrite String.eqb_refl.
Qed.

Lemma no_blank_app s t : no_blank (s +:+ t) = no_blank s && no_blank t.
Proof.
  unfold no_blank. induction s as [|c s IH]; [done|].
  rewrite app_cons. simpl. by rewrite IH, andb_assoc.
Qed.

Lemma no_blank_field s : no_blank (field s) = true.
Proof.
  induction s as [|c s IH]; [done|].
  destruct c as [b0 b1 b2 b3 b4 b5 b6 b7].
  change (no_blank (field (String (Ascii b0 b1 b2 b3 b4 b5 b6 b7) s)))
    with (negb (Ascii.eqb (bit b0) " ") && (negb (Ascii.eqb (bit b1) " ") &&
          (negb (Ascii.eqb (bit b2) " ") && (negb (Ascii.eqb (bit b3) " ") &&
          (negb (Ascii.eqb (bit b4) " ") && (negb (Ascii.eqb (bit b5) " ") &&
          (negb (Ascii.eqb (bit b6) " ") && (negb (Ascii.eqb (bit b7) " ") &&
           no_blank (field s))))))))).
  rewrite IH. by destruct b0, b1, b2, b3, b4, b5, b6, b7.
Qed.

Lemma encode_shape payload key alg :
  truthy (encode payload key alg) = true /\ no_blank (encode payload key alg) = true.
Proof.
  split.
  - unfold encode, signing_input. by destruct alg.
  - unfold encode, signing_input, digest.
    by rewrite !no_blank_app, !no_blank_field.
Qed.

#[global] Instance jwt : Jwt := {|
  jwt_encode := encode;
  jwt_decode := decode;
  jwt_decode_encode := decode_encode;
  jwt_token_shape := encode_shape
|}.

(** ** Password hashing without salt *)
#[global] Instance werkzeug : Werkzeug := {|
  generate_password_hash password := "plain$" +:+ password;
  check_password_hash pwhash password := String.eqb pwhash ("plain$" +:+ password)
|}.

(** ** [int] and [float] on decimal literals

    The sample parsers read what surrounds the literal as Python does
    (blanks, a sign, the special names of [float]) and leave digit
    separators aside. *)
Definition sign_of (s : string) : bool * string :=
  match s with
  | String "-" rest => (true, rest)
  | String "+" rest => (false, rest)
  | _ => (false, s)
  end.

Fixpoint span (p : ascii -> bool) (s : string) : string * string :=
  match s with
  | EmptyString => (EmptyString, EmptyString)
  | String c s' =>
      if p c then let '(a, b) := span p s' in (String c a, b)
      else (EmptyString, s)
  end.

Fixpoint digits_value (acc : Z) (s : string) : Z :=
  match s with
  | EmptyString => acc
  | String c s' => digits_value (10 * acc + (Z.of_N (PyStr.ord c) - 48)) s'
  end.

Definition sample_int (s : string) : option Z :=
  let '(negative, body) := sign_of (strip s) in
  if truthy body && all_chars isdecimal body then
    Some (if negative then - digits_value 0 body else digits_value 0 body)%Z
  else None.

(** [m * 10 ^ e], rounded to the nearest binary64 value, ties to even. The
    quotient of a negative exponent keeps 64 bits more than the divisor and
    a sticky bit, so that rounding it rounds the exact value. *)
Definition decimal_float (negative : bool) (m e : Z) : float :=
  let x :=
    if (0 <=? e)%Z then SpecFloat.binary_normalize 53 1024 (m * 10 ^ e) 0 false
    else
      let divisor := (10 ^ (- e))%Z in
      let shift := (Z.log2 divisor + 65)%Z in
      let scaled := (m * 2 ^ shift)%Z in
      let sticky := if (scaled mod divisor =? 0)%Z then 0%Z else 1%Z in
      SpecFloat.binary_normalize 53 1024 (2 * (scaled / divisor) + sticky)
        (- (shift + 1)) false in
  let magnitude := SF2Prim x in
  if negative then (- magnitude)%float else magnitude.

Definition sample_float (s : string) : option float :=
  let '(negative, body) := sign_of (lower (strip s)) in
  if String.eqb body "nan" then Some nan
  else if String.eqb body "inf" || String.eqb body "infinity" then
    Some (if negative then neg_infinity else infinity)
  else
    let '(whole, rest) := span isdecimal body in
    let '(fraction, rest) :=
      match rest with
      | String "." rest' => span isdecimal rest'
      | _ => (EmptyString, rest)
      end in
    let mantissa := digits_value 0 (whole +:+ fraction) in
    let scale := (- Z.of_nat (String.length fraction))%Z in
    if negb (truthy whole) && negb (truthy fraction) then None
    else
      match rest with
      | EmptyString => Some (decimal_float negative mantissa scale)
      | String "e" exponent =>
          let '(down, exponent) := sign_of exponent in
          if truthy exponent && all_chars isdecimal exponent then
            let e := digits_value 0 exponent in
            Some (decimal_float negative mantissa
                    (scale + (if down then - e else e)))%Z
          else None
      | _ => None
      end.

#[global] Instance builtins : Builtins := {|
  int_of_str := sample_int;
  float_of_str := sample_float
|}.

(** ** Text search by substring and a stable sort on three fields *)
Fixpoint contains (needle hay : string) : bool :=
  String.prefix needle hay ||
  match hay with
  | EmptyString => false
  | String _ hay' => contains needle hay'
  end.

Definition key_le (field : string) (p q : Product) : bool :=
  if String.eqb field "price" then (p_price p <=? p_price q)%float
  else if String.eqb field "title" then String.leb (p_title p) (p_title q)
  else if String.eqb field "createdAt" then (p_createdAt p <=? p_createdAt q)%Z
  else true.

Definition ordered (field : string) (direction : Z) (p q : Product) : Prop :=
  if (direction <? 0)%Z then key_le field q p = true
  else key_le field p q = true.

#[global] Instance ordered_dec field direction p q :
  Decision (ordered field direction p q).
Proof. unfold ordered. destruct (direction <? 0)%Z; apply _. Defined.

#[global] Instance pymongo : Pymongo := {|
  text_search keyword p :=
    contains (lower keyword) (lower (p_title p))
    || contains (lower keyword) (lower (p_description p));
  sort_by field direction := merge_sort (ordered field direction);
  sort_by_perm field direction := merge_sort_Permutation (ordered field direction)
|}.

Example sample_float_literals :
  sample_float "9.99" = Some 0x1.3fae147ae147bp+3%float /\
  sample_float " -5 " = Some (-5)%float /\
  sample_float "1e3" = Some 1000%float /\
  sample_float "abc" = None /\
  sample_int "12" = Some 12%Z /\
  sample_int "1a" = None.
Proof. repeat split; vm_compute; reflexivity. Qed.

End Sample.

Import Lib App.

(** ** The authorization header *)
Section SplitFacts.

Lemma split_nonempty sep s : split sep s <> [].
Proof.
  induction s as [|c s IH]; simpl; [done|].
  destruct (Ascii.eqb c sep); [done|]. by destruct (split sep s).
Qed.

(** A word without blanks is one piece. *)
Lemma split_word s : no_blank s = true -> split " " s = [s].
Proof.
  unfold no_blank. induction s as [|c s IH]; simpl; [done|].
  intros [Hc Hs]%andb_true_iff. apply negb_true_iff in Hc.
  by rewrite Hc, IH.
Qed.

(** The first blank ends the first piece, whatever follows. *)
Lemma split_scheme scheme rest :
  no_blank scheme = true ->
  split " " (scheme +:+ " " +:+ rest) = scheme :: split " " rest.
Proof.
  unfold no_blank. induction scheme as [|c s IH]; [done|].
  rewrite app_cons. simpl. intros [Hc Hs]%andb_true_iff.
  apply negb_true_iff in Hc. by rewrite Hc, IH.
Qed.

Lemma second_piece scheme token :
  no_blank scheme = true -> no_blank token = true ->
  split " " (scheme +:+ " " +:+ token) !! 1%nat = Some token.
Proof.
  intros Hs Ht. by rewrite split_scheme, split_word.
Qed.

End SplitFacts.

(** ** The auth gate *)
Section AuthFacts.
Context `{Jwt}.
Variable cfg : Config.

Implicit Types (d : Database) (env : Env) (u : User).

(** What the gate does once it holds a non-empty token. *)
Definition resolve d env (token : string) : response + User :=
  match jwt_decode token (SECRET_KEY cfg) [HS256] (now env) with
  | ExpiredSignatureError => inl (respond 401 (Error "Token has expired"))
  | InvalidTokenError => inl (respond 401 (Error "Token is invalid"))
  | Decoded data =>
      match oid_parse (claim_user_id data) with
      | None => inl (respond 401 (Error "Token validation failed"))
      | Some oid =>
          match find_user_by_id oid (users d) with
          | None => inl (respond 401 (Error "User not found"))
          | Some current_user => inr current_user
          end
      end
  end.

Lemma authenticate_header d env header :
  truthy header = true ->
  authenticate cfg (Some d) env (Some header)
  = match split " " header !! 1%nat with
    | None => inl (respond 401 (Error "Invalid token format"))
    | Some token =>
        if truthy token then resolve d env token
        else inl (respond 401 (Error "Token is missing"))
    end.
Proof.
  intros Hh. unfold authenticate, resolve. rewrite Hh.
  destruct (split " " header !! 1%nat) as [token|]; [|done].
  simpl. by destruct (truthy token).
Qed.

Lemma authenticate_scheme d env scheme token :
  no_blank scheme = true -> no_blank token = true -> truthy token = true ->
  authenticate cfg (Some d) env (Some (scheme +:+ " " +:+ token))
  = resolve d env token.
Proof.
  intros Hs Ht Hne. rewrite authenticate_header.
  - by rewrite second_piece, Hne.
  - by destruct scheme.
Qed.

Lemma authenticate_bearer d env token :
  no_blank token = true -> truthy token = true ->
  authenticate cfg (Some d) env (Some ("Bearer " +:+ token)) = resolve d env token.
Proof.
  intros. change ("Bearer " +:+ token) with ("Bearer" +:+ " " +:+ token).
  by apply authenticate_scheme.
Qed.

Lemma authenticate_word d env word :
  truthy word = true -> no_blank word = true ->
  authenticate cfg (Some d) env (Some word)
  = inl (respond 401 (Error "Invalid token format")).
Proof.
  intros Hw Hb. rewrite authenticate_header by done.
  by rewrite split_word.
Qed.

Lemma resolve_issued d env payload :
  resolve d env (jwt_encode payload (SECRET_KEY cfg) HS256)
  = if (claim_exp payload <? now env)%Z then
      inl (respond 401 (Error "Token has expired"))
    else
      match oid_parse (claim_user_id payload) with
      | None => inl (respond 401 (Error "Token validation failed"))
      | Some oid =>
          match find_user_by_id oid (users d) with
          | None => inl (respond 401 (Error "User not found"))
          | Some current_user => inr current_user
          end
      end.
Proof.
  unfold resolve. rewrite jwt_decode_encode by (apply list_elem_of_here).
  by destruct (claim_exp payload <? now env)%Z.
Qed.

(** C1, amended: the gate never inspects the scheme word. A header made of
    one word has no token segment and is rejected with the 401 "Invalid
    token format" without the wrapped operation being called; a header
    [scheme rest] is treated exactly as [Bearer rest] for every scheme word
    without blanks, so the outcome depends on the token segment alone. *)
Theorem C1_scheme_word_not_inspected db d env scheme rest f :
  no_blank scheme = true ->
  authenticate cfg db env (Some (scheme +:+ " " +:+ rest))
    = authenticate cfg db env (Some ("Bearer " +:+ rest)) /\
  (truthy scheme = true ->
   authenticate cfg (Some d) env (Some scheme)
     = inl (respond 401 (Error "Invalid token format")) /\
   auth_middleware cfg f (Some d) env (Some scheme)
     = (Some d, respond 401 (Error "Invalid token format"))).
Proof.
  intros Hs. split.
  - destruct db as [d0|]; [|done].
    change ("Bearer " +:+ rest) with ("Bearer" +:+ " " +:+ rest).
    rewrite !authenticate_header; [|done|by destruct scheme].
    by rewrite (split_scheme scheme), (split_scheme "Bearer").
  - intros Hw. unfold auth_middleware. by rewrite authenticate_word.
Qed.

(** C8: a well-formed token that verifies (valid signature, not expired)
    and whose subject is a well-formed identifier of no stored user is
    rejected with the 401 "User not found", and the wrapped operation is
    not called; the rejections for a missing header, a one-word header, an
    invalid token and an expired token carry other messages. *)
Theorem C8_deleted_user_rejected d env token payload oid :
  truthy token = true -> no_blank token = true ->
  jwt_decode token (SECRET_KEY cfg) [HS256] (now env) = Decoded payload ->
  oid_parse (claim_user_id payload) = Some oid ->
  find_user_by_id oid (users d) = None ->
  let header := Some ("Bearer " +:+ token) in
  let rejection := respond 401 (Error "User not found") in
  authenticate cfg (Some d) env header = inl rejection /\
  (forall f, auth_middleware cfg f (Some d) env header = (Some d, rejection)) /\
  (exists missing,
     authenticate cfg (Some d) env None = inl missing /\ missing <> rejection) /\
  (forall word, truthy word = true -> no_blank word = true ->
     exists malformed,
       authenticate cfg (Some d) env (Some word) = inl malformed /\
       malformed <> rejection) /\
  (forall other, truthy other = true -> no_blank other = true ->
     jwt_decode other (SECRET_KEY cfg) [HS256] (now env) = InvalidTokenError ->
     exists invalid,
       authenticate cfg (Some d) env (Some ("Bearer " +:+ other)) = inl invalid /\
       invalid <> rejection) /\
  (forall other, truthy other = true -> no_blank other = true ->
     jwt_decode other (SECRET_KEY cfg) [HS256] (now env) = ExpiredSignatureError ->
     exists expired,
       authenticate cfg (Some d) env (Some ("Bearer " +:+ other)) = inl expired /\
       expired <> rejection).
Proof.
  intros Hne Hnb Hdecode Hoid Hfind header rejection.
  assert (authenticate cfg (Some d) env header = inl rejection) as Hrej.
  { unfold header. rewrite authenticate_bearer by done.
    unfold resolve. by rewrite Hdecode, Hoid, Hfind. }
  split; [done|]. split; [|split; [|split; [|split]]].
  - intros f. unfold auth_middleware. by rewrite Hrej.
  - by eexists.
  - intros word Hw Hb. rewrite authenticate_word by done. by eexists.
  - intros other Ht Hb Hdec. rewrite authenticate_bearer by done.
    unfold resolve. rewrite Hdec. by eexists.
  - intros other Ht Hb Hdec. rewrite authenticate_bearer by done.
    unfold resolve. rewrite Hdec. by eexists.
Qed.

End AuthFacts.

Import Json Validators.

(** ** JSON bodies and the registration routes *)
Section BodyFacts.
Context `{Jwt} `{Werkzeug}.
Variable cfg : Config.

Implicit Types (m : gmap string json) (data errors : gmap string string)
  (k : string) (d : Database) (env : Env) (request : json).

Lemma lookup_texts m k s : omap text m !! k = Some s <-> m !! k = Some (JStr s).
Proof.
  rewrite lookup_omap.
  destruct (m !! k) as [[]|]; simpl; split; intros; by simplify_eq.
Qed.

Lemma texts_object data : texts (object data) = data.
Proof.
  unfold texts, object. apply map_eq. intros k.
  rewrite lookup_omap, lookup_fmap. by destruct (data !! k).
Qed.

Lemma get_texts m k :
  get (omap text m) k = match m !! k with Some (JStr s) => s | _ => "" end.
Proof. unfold get. rewrite lookup_omap. by destruct (m !! k) as [[]|]. Qed.

(** [data.get(k, '').strip()] returns only for a member that is a string
    or is absent. *)
Lemma json_get_strip m k s :
  json_get (JDict m) k (JStr "") ≫= json_strip = inr s ->
  s = strip (get (omap text m) k).
Proof.
  simpl. rewrite get_texts.
  destruct (m !! k) as [[]|]; simpl; intros; by simplify_eq.
Qed.

Lemma name_error_present label raw : name_error label raw = None -> raw <> "".
Proof. by intros Hn ->. Qed.

Lemma email_error_present raw : email_error raw = None -> raw <> "".
Proof. by intros Hn ->. Qed.

Lemma phone_error_present raw : phone_error raw = None -> raw <> "".
Proof. by intros Hn ->. Qed.

Lemma get_present data k : get data k <> "" -> data !! k = Some (get data k).
Proof. unfold get. destruct (data !! k); simpl; congruence. Qed.

(** A string member the validators found in order is a member of the
    body. *)
Lemma texts_present m k :
  get (omap text m) k <> "" -> m !! k = Some (JStr (get (omap text m) k)).
Proof. intros Hne. by apply lookup_texts, get_present. Qed.

Lemma lookup_rule1_ne k k' (b : bool) (v : string) errors :
  k' <> k -> (if b then <[k' := v]> errors else errors) !! k = errors !! k.
Proof. intros. destruct b; by rewrite ?lookup_insert_ne. Qed.

Lemma lookup_rule1_eq k (b : bool) (v : string) errors :
  (if b then <[k := v]> errors else errors) !! k
  = if b then Some v else errors !! k.
Proof. destruct b; by rewrite ?lookup_insert_eq. Qed.

Ltac rule_lookup :=
  repeat first
    [ rewrite lookup_rule3_ne by done
    | rewrite lookup_rule2_ne by done
    | rewrite lookup_rule3_eq
    | rewrite lookup_rule2_eq
    | rewrite lookup_rule1_ne by done
    | rewrite lookup_rule1_eq
    | rewrite lookup_insert_eq
    | rewrite lookup_insert_ne by done
    | rewrite lookup_empty ].

(** A member that is a string, or is absent. *)
Definition textual m k : Prop :=
  match m !! k with
  | Some (JStr _) | None => True
  | Some _ => False
  end.

Lemma default_textual m k :
  textual m k -> default (JStr "") (m !! k) = JStr (get (omap text m) k).
Proof.
  unfold textual. rewrite get_texts. by destruct (m !! k) as [[]|].
Qed.

Lemma textual_object data k : textual (JStr <$> data) k.
Proof. unfold textual. rewrite lookup_fmap. by destruct (data !! k). Qed.

Ltac bind_step :=
  cbn [mbind exc_bind mret exc_ret json_get json_strip json_len json_truthy
       json_item json_hash].

(** On members that are strings the validators of [Json] are those of
    [Validators]. *)
Lemma json_auth_texts m is_login :
  (is_login = false -> textual m "name") -> textual m "email" ->
  textual m "password" ->
  Json.validate_auth_data (JDict m) is_login
  = inr (validate_auth_data (omap text m) is_login).
Proof.
  intros Hn He Hp. unfold Json.validate_auth_data, validate_auth_data.
  bind_step. rewrite (default_textual m "email"), (default_textual m "password") by done.
  destruct is_login; cbn [negb]; bind_step.
  - by destruct (negb (truthy (get (omap text m) "password"))).
  - rewrite (default_textual m "name") by auto. bind_step.
    by destruct (negb (truthy (get (omap text m) "password"))).
Qed.

Lemma json_eq_text s v : json_eq false (JStr s) v = true -> v = JStr s.
Proof.
  destruct v; simpl; try done. intros Heq. by apply String.eqb_eq in Heq as ->.
Qed.

Lemma json_registration_texts m :
  textual m "fullName" -> textual m "email" -> textual m "phone" ->
  textual m "password" -> textual m "confirmPassword" ->
  Json.validate_registration_data (JDict m)
  = inr (validate_registration_data (omap text m)).
Proof.
  intros Hn He Hph Hp Hc.
  unfold Json.validate_registration_data, validate_registration_data.
  bind_step.
  rewrite (default_textual m "fullName"), (default_textual m "email"),
    (default_textual m "phone"), (default_textual m "password"),
    (default_textual m "confirmPassword") by done.
  bind_step.
  by destruct (negb (truthy (get (omap text m) "password"))).
Qed.

Lemma json_auth_shape m errs :
  Json.validate_auth_data (JDict m) false = inr errs ->
  let data := omap text m in
  errs !! "name" = name_error "Name" (get data "name") /\
  errs !! "email" = email_error (get data "email") /\
  (errs !! "password" = None -> is_Some (m !! "password")).
Proof.
  intros Hv data. unfold Json.validate_auth_data in Hv.
  cbn [negb] in Hv.
  destruct (json_get (JDict m) "name" (JStr "") ≫= json_strip)
    as [e|name] eqn:Hname; [discriminate|].
  apply json_get_strip in Hname. fold data in Hname.
  cbn [mbind exc_bind mret exc_ret] in Hv.
  destruct (json_get (JDict m) "email" (JStr "") ≫= json_strip)
    as [e|email] eqn:Hemail; [discriminate|].
  apply json_get_strip in Hemail. fold data in Hemail.
  cbn [mbind exc_bind mret exc_ret json_get] in Hv.
  subst name email. unfold name_error, email_error. cbv zeta.
  destruct (m !! "password") as [v|] eqn:Hpw;
    cbn [default from_option id] in Hv.
  - destruct (negb (json_truthy v)); cbn [mbind exc_bind mret exc_ret] in Hv.
    + injection Hv as <-.
      repeat split; first [by rule_lookup | intros _; by eexists].
    + destruct (json_len v) as [e|n]; [discriminate|].
      cbn [mbind exc_bind mret exc_ret] in Hv.
      injection Hv as <-.
      repeat split; first [by rule_lookup | intros _; by eexists].
  - cbn [json_truthy truthy negb mbind exc_bind mret exc_ret] in Hv.
    injection Hv as <-. repeat split; by rule_lookup.
Qed.

Lemma json_registration_shape m errs :
  Json.validate_registration_data (JDict m) = inr errs ->
  let data := omap text m in
  errs !! "fullName" = name_error "Full Name" (get data "fullName") /\
  errs !! "email" = email_error (get data "email") /\
  errs !! "phone" = phone_error (get data "phone") /\
  (errs !! "password" = None -> is_Some (m !! "password")) /\
  (errs !! "confirmPassword" = None ->
   forall p, m !! "password" = Some (JStr p) -> textual m "confirmPassword").
Proof.
  intros Hv data. unfold Json.validate_registration_data in Hv.
  destruct (json_get (JDict m) "fullName" (JStr "") ≫= json_strip)
    as [e|name] eqn:Hname; [discriminate|].
  apply json_get_strip in Hname. fold data in Hname.
  cbn [mbind exc_bind mret exc_ret] in Hv.
  destruct (json_get (JDict m) "email" (JStr "") ≫= json_strip)
    as [e|email] eqn:Hemail; [discriminate|].
  apply json_get_strip in Hemail. fold data in Hemail.
  cbn [mbind exc_bind mret exc_ret] in Hv.
  destruct (json_get (JDict m) "phone" (JStr "") ≫= json_strip)
    as [e|phone] eqn:Hphone; [discriminate|].
  apply json_get_strip in Hphone. fold data in Hphone.
  cbn [mbind exc_bind mret exc_ret json_get] in Hv.
  subst name email phone. unfold name_error, email_error, phone_error. cbv zeta.
  assert (forall v (b : bool) errors,
            (if negb (json_truthy (default (JStr "") (m !! "confirmPassword")))
             then <["confirmPassword" := "Confirm Password is required"]> errors
             else if negb (json_eq false v (default (JStr "") (m !! "confirmPassword")))
                  then <["confirmPassword" := "Passwords do not match"]> errors
                  else errors) !! "confirmPassword" = None ->
            errors !! "confirmPassword" = None ->
            forall p, v = JStr p -> textual m "confirmPassword") as Hconfirm.
  { intros v b errors Hnone _ p ->. rewrite lookup_rule2_eq in Hnone.
    unfold textual. destruct (m !! "confirmPassword") as [c|]; [|done].
    cbn [default from_option id] in Hnone.
    destruct (negb (json_truthy c)); [done|].
    destruct (json_eq false (JStr p) c) eqn:Heq; [|done].
    by apply json_eq_text in Heq as ->. }
  destruct (m !! "password") as [v|] eqn:Hpw;
    cbn [default from_option id] in Hv.
  - destruct (negb (json_truthy v)); cbn [mbind exc_bind mret exc_ret] in Hv.
    + injection Hv as <-.
      split; [by rule_lookup|]. split; [by rule_lookup|].
      split; [by rule_lookup|]. split; [intros _; by eexists|].
      intros Hnone p [= ->]. eapply (Hconfirm _ true); [exact Hnone| |done].
      by rule_lookup.
    + destruct (json_len v) as [e|n]; [discriminate|].
      cbn [mbind exc_bind mret exc_ret] in Hv.
      injection Hv as <-.
      split; [by rule_lookup|]. split; [by rule_lookup|].
      split; [by rule_lookup|]. split; [intros _; by eexists|].
      intros Hnone p [= ->]. eapply (Hconfirm _ true); [exact Hnone| |done].
      by rule_lookup.
  - cbn [json_truthy truthy negb mbind exc_bind mret exc_ret] in Hv.
    injection Hv as <-.
    split; [by rule_lookup|]. split; [by rule_lookup|].
    split; [by rule_lookup|]. split; [by rule_lookup|]. done.
Qed.

(** The two registration routes. *)
Inductive endpoint : Type := AuthRegister | LegacyRegister.

Definition register (ep : endpoint) :=
  match ep with
  | AuthRegister => register_jwt cfg
  | LegacyRegister => register_user cfg
  end.

(** The validator of a route, on a body of string members and on any
    body. *)
Definition validate (ep : endpoint) data : gmap string string :=
  match ep with
  | AuthRegister => validate_auth_data data false
  | LegacyRegister => validate_registration_data data
  end.

Definition validate_json (ep : endpoint) request : exn + gmap string string :=
  match ep with
  | AuthRegister => Json.validate_auth_data request false
  | LegacyRegister => Json.validate_registration_data request
  end.

Definition conflict : response :=
  respond 400 (ValidationFailed {[ "email" := "Email already registered" ]}).

(** The document a registration route builds from the string members of a
    valid body, and its answer. *)
Definition registered (ep : endpoint) env data : User :=
  {| u_id := new_oid env;
     u_name :=
       match ep with
       | AuthRegister => Some (strip (get data "name"))
       | LegacyRegister => None
       end;
     u_fullName :=
       match ep with
       | AuthRegister => None
       | LegacyRegister => Some (strip (get data "fullName"))
       end;
     u_email := lower (strip (get data "email"));
     u_phone :=
       match ep with
       | AuthRegister => None
       | LegacyRegister => Some (re_sub_nondigits (strip (get data "phone")))
       end;
     u_password := generate_password_hash (get data "password");
     u_createdAt := now env;
     u_isActive := true |}.

Definition registration_answer (ep : endpoint) env data : response :=
  let id := oid_str (new_oid env) in
  let email := lower (strip (get data "email")) in
  match ep with
  | AuthRegister =>
      respond 201
        (AuthOk "User registered successfully" (issue_token cfg env id email)
           id (strip (get data "name")) email (Some (now env)))
  | LegacyRegister =>
      respond 201
        (UserOk id (strip (get data "fullName")) email
           (re_sub_nondigits (strip (get data "phone"))) (now env))
  end.

Lemma validate_email ep data :
  validate ep data !! "email" = email_error (get data "email").
Proof. destruct ep; [apply auth_email | apply registration_email]. Qed.

(** On a body of string members the validators of the routes are those of
    [Validators]. *)
Lemma validate_json_object ep data :
  validate_json ep (object data) = inr (validate ep data).
Proof.
  unfold object. rewrite <- (texts_object data) at 2. unfold texts, object.
  destruct ep; simpl.
  - apply json_auth_texts; intros; apply textual_object.
  - apply json_registration_texts; apply textual_object.
Qed.

Lemma json_truthy_members m k : is_Some (m !! k) -> json_truthy (JDict m) = true.
Proof.
  intros [v Hv]. simpl. apply negb_true_iff, Nat.eqb_neq.
  intros Hsize. apply map_size_empty_iff in Hsize. subst m.
  by rewrite lookup_empty in Hv.
Qed.

(** A body that passes validation is an object; the members the route
    reads are strings, but for the password, which is there. *)
Lemma valid_json_members ep request :
  validate_json ep request = inr ∅ ->
  exists m,
    request = JDict m /\
    let data := omap text m in
    m !! "email" = Some (JStr (get data "email")) /\
    is_Some (m !! "password") /\
    (forall p, m !! "password" = Some (JStr p) -> validate ep data = ∅) /\
    match ep with
    | AuthRegister => m !! "name" = Some (JStr (get data "name"))
    | LegacyRegister =>
        m !! "fullName" = Some (JStr (get data "fullName")) /\
        m !! "phone" = Some (JStr (get data "phone"))
    end.
Proof.
  intros Hv.
  destruct request as [| | | | | |m];
    try (destruct ep; discriminate Hv).
  exists m. split; [done|]. intros data.
  destruct ep; simpl in Hv.
  - destruct (json_auth_shape m ∅ Hv) as (Hn & He & Hp).
    fold data in Hn, He. rewrite lookup_empty in Hn, He, Hp.
    symmetry in Hn, He.
    apply name_error_present, texts_present in Hn.
    apply email_error_present, texts_present in He.
    specialize (Hp eq_refl).
    split; [done|]. split; [done|]. split; [|done].
    intros p Hpw. simpl.
    assert (Json.validate_auth_data (JDict m) false
            = inr (validate_auth_data data false)) as Heq.
    { apply json_auth_texts; intros; unfold textual.
      - by rewrite Hn.
      - by rewrite He.
      - by rewrite Hpw. }
    rewrite Hv in Heq. by injection Heq as <-.
  - destruct (json_registration_shape m ∅ Hv) as (Hn & He & Hph & Hp & Hc).
    fold data in Hn, He, Hph. rewrite lookup_empty in Hn, He, Hph, Hp, Hc.
    symmetry in Hn, He, Hph.
    apply name_error_present, texts_present in Hn.
    apply email_error_present, texts_present in He.
    apply phone_error_present, texts_present in Hph.
    specialize (Hp eq_refl). specialize (Hc eq_refl).
    split; [done|]. split; [done|]. split; [|done].
    intros p Hpw. simpl.
    assert (Json.validate_registration_data (JDict m)
            = inr (validate_registration_data data)) as Heq.
    { apply json_registration_texts; unfold textual.
      - by rewrite Hn.
      - by rewrite He.
      - by rewrite Hph.
      - by rewrite Hpw.
      - by apply (Hc p). }
    rewrite Hv in Heq. by injection Heq as <-.
Qed.

(** The run of a registration route, step by step: the test of the body,
    the validator, the look-up of the email, the hash of the password and
    the insertion. *)
Lemma register_run ep d env request :
  register ep (Some d) env request =
  if negb (json_truthy request) then
    (Some d, respond 400 (Error "No data provided"))
  else
    match validate_json ep request with
    | inl e => (Some d, server_error cfg e)
    | inr errs =>
        if negb (bool_decide (errs = ∅)) then
          (Some d, respond 400 (ValidationFailed errs))
        else
          let data := texts request in
          match find_user_by_email (lower (strip (get data "email"))) (users d) with
          | Some _ => (Some d, conflict)
          | None =>
              match data !! "password" with
              | None => (Some d, server_error cfg AttributeError)
              | Some _ =>
                  (Some (insert_user (registered ep env data) d),
                   registration_answer ep env data)
              end
          end
    end.
Proof.
  destruct ep; simpl; unfold register_jwt, register_user, caught;
    (destruct (negb (json_truthy request)); [done|]).
  - destruct (Json.validate_auth_data request false) as [e|errs] eqn:Hv;
      cbn [mbind exc_bind mret exc_ret]; [done|].
    case_bool_decide as Herrs; cbn [negb]; [|done]. subst errs.
    destruct (valid_json_members AuthRegister request Hv)
      as (m & -> & He & [v Hp] & _ & Hn).
    cbn [json_item texts]. unfold getitem. rewrite He.
    cbn [mbind exc_bind mret exc_ret json_strip].
    destruct (find_user_by_email _ _); [done|].
    rewrite Hp. cbn [mbind exc_bind mret exc_ret].
    assert (omap text m !! "password" = text v) as ->
      by (by rewrite lookup_omap, Hp).
    assert (get (omap text m) "password" = default "" (text v)) as Hget
      by (by rewrite get_texts, Hp; destruct v).
    destruct v; try done.
    cbn [json_hash text mbind exc_bind mret exc_ret]. rewrite Hn.
    cbn [mbind exc_bind mret exc_ret json_strip].
    unfold registered, registration_answer. by rewrite Hget.
  - destruct (Json.validate_registration_data request) as [e|errs] eqn:Hv;
      cbn [mbind exc_bind mret exc_ret]; [done|].
    case_bool_decide as Herrs; cbn [negb]; [|done]. subst errs.
    destruct (valid_json_members LegacyRegister request Hv)
      as (m & -> & He & [v Hp] & _ & Hn & Hph).
    cbn [json_item texts]. unfold getitem. rewrite He.
    cbn [mbind exc_bind mret exc_ret json_strip].
    destruct (find_user_by_email _ _); [done|].
    rewrite Hn. cbn [mbind exc_bind mret exc_ret json_strip].
    rewrite Hph. cbn [mbind exc_bind mret exc_ret json_strip].
    rewrite Hp. cbn [mbind exc_bind mret exc_ret].
    assert (omap text m !! "password" = text v) as ->
      by (by rewrite lookup_omap, Hp).
    assert (get (omap text m) "password" = default "" (text v)) as Hget
      by (by rewrite get_texts, Hp; destruct v).
    destruct v; try done.
    cbn [json_hash text mbind exc_bind mret exc_ret].
    unfold registered, registration_answer. by rewrite Hget.
Qed.


Lemma password_error_present raw : password_error raw = None -> raw <> "".
Proof. by intros Hn ->. Qed.

Lemma validate_password ep data :
  validate ep data !! "password" = password_error (get data "password").
Proof. destruct ep; [apply auth_password | apply registration_password]. Qed.

(** What a registration route does: it answers 201 and appends the
    document built from the string members of the body, which pass
    validation and whose email is free, or it answers 400 or 500 and leaves
    the store as it is. *)
Lemma register_outcomes ep d env request db' r :
  register ep (Some d) env request = (db', r) ->
  let data := texts request in
  (status r = 201%Z /\ validate ep data = ∅ /\
   find_user_by_email (lower (strip (get data "email"))) (users d) = None /\
   db' = Some (insert_user (registered ep env data) d) /\
   r = registration_answer ep env data) \/
  ((status r = 400%Z \/ status r = 500%Z) /\ db' = Some d).
Proof.
  rewrite register_run. intros Hrun data.
  destruct (negb (json_truthy request)); [simplify_eq/=; auto|].
  destruct (validate_json ep request) as [e|errs] eqn:Hv; [simplify_eq/=; auto|].
  case_bool_decide as Herrs; cbn [negb] in Hrun; [|simplify_eq/=; auto].
  subst errs. cbv zeta in Hrun. fold data in Hrun.
  destruct (find_user_by_email _ _) eqn:Hfind; [simplify_eq/=; auto|].
  destruct (data !! "password") as [p|] eqn:Hp; [|simplify_eq/=; auto].
  injection Hrun as <- <-. left.
  destruct (valid_json_members ep request Hv) as (m & -> & _ & _ & Hvalid & _).
  apply lookup_texts in Hp. split; [by destruct ep|]. eauto.
Qed.

(** A body whose members are all strings is never answered with a 500. *)
Lemma register_object ep d env data db' r :
  register ep (Some d) env (object data) = (db', r) -> status r <> 500%Z.
Proof.
  rewrite register_run, validate_json_object, texts_object. intros Hrun.
  destruct (negb (json_truthy _)); [by simplify_eq/=|].
  case_bool_decide as Herrs; cbn [negb] in Hrun; [|by simplify_eq/=].
  cbv zeta in Hrun.
  destruct (find_user_by_email _ _); [by simplify_eq/=|].
  pose proof (validate_password ep data) as Hp.
  rewrite Herrs, lookup_empty in Hp. symmetry in Hp.
  apply password_error_present, get_present in Hp. rewrite Hp in Hrun.
  injection Hrun as <- <-. by destruct ep.
Qed.

End BodyFacts.

(** ** Token issuance and lifetime *)
Section TokenFacts.
Context `{Jwt} `{Werkzeug}.
Variable cfg : Config.

Implicit Types (d : Database) (env : Env) (request : json)
  (data : option (gmap string string)).




End TokenFacts.

(** ** Registration and the uniqueness of emails *)
Section RegistrationFacts.
Context `{Jwt} `{Werkzeug}.
Variable cfg : Config.

Implicit Types (d : Database) (env : Env) (data : gmap string string)
  (request : json).

Lemma find_user_by_email_taken email coll u :
  u ∈ coll -> u_email u = email -> is_Some (find_user_by_email email coll).
Proof.
  intros Hin Hu. unfold find_user_by_email.
  destruct (List.find _ coll) eqn:Hfind; [by eexists|].
  apply list_elem_of_In in Hin.
  apply (find_none _ _ Hfind) in Hin. subst email.
  by rewrite String.eqb_refl in Hin.
Qed.

(** Registering a taken email inserts nothing and is answered with a 400
    or a 500; the answer is the email conflict when the request passes
    validation. *)
Lemma register_taken ep d env request u :
  u ∈ users d -> u_email u = lower (strip (get (texts request) "email")) ->
  (validate_json ep request = inr ∅ ->
   register cfg ep (Some d) env request = (Some d, conflict)) /\
  exists r, register cfg ep (Some d) env request = (Some d, r) /\
            (status r = 400%Z \/ status r = 500%Z).
Proof.
  intros Hin Hu.
  destruct (find_user_by_email_taken _ _ _ Hin Hu) as [existing Hfind].
  rewrite register_run. cbv zeta. rewrite Hfind. split.
  - intros Hv. rewrite Hv.
    destruct (valid_json_members ep request Hv) as (m & -> & He & _).
    rewrite (json_truthy_members m "email") by (by eexists).
    by rewrite bool_decide_true.
  - destruct (negb (json_truthy request)); [by eexists; eauto|].
    destruct (validate_json ep request); [by eexists; eauto|].
    destruct (negb _); by eexists; eauto.
Qed.

(** C7, amended: when a registration has succeeded, every later
    registration on either route whose email is a string that is the same
    after trimming and lower-casing inserts no user; it is answered with a
    400, or with a 500 when the validator raises on a member that has not
    the type it expects. The answer is the email-scoped "Email already
    registered" error whenever the later request passes field validation,
    which is checked first, and it is a 400 whenever the members of the
    later body are all strings. *)
Theorem C7_duplicate_email_conflict ep1 ep2 d env1 env2 request1 request2 db1 r1 :
  lower (strip (get (texts request1) "email"))
  = lower (strip (get (texts request2) "email")) ->
  register cfg ep1 (Some d) env1 request1 = (db1, r1) ->
  status r1 = 201%Z ->
  (validate_json ep2 request2 = inr ∅ ->
   register cfg ep2 db1 env2 request2
   = (db1, respond 400
             (ValidationFailed {[ "email" := "Email already registered" ]}))) /\
  (exists r2, register cfg ep2 db1 env2 request2 = (db1, r2) /\
              (status r2 = 400%Z \/ status r2 = 500%Z)) /\
  (forall data2,
     request2 = object data2 ->
     exists r2, register cfg ep2 db1 env2 request2 = (db1, r2) /\
                status r2 = 400%Z).
Proof.
  intros Hsame Hrun Hst.
  apply register_outcomes in Hrun
    as [(_ & _ & _ & -> & _)|[[Hbad|Hbad] _]];
    [|rewrite Hbad in Hst; done|rewrite Hbad in Hst; done].
  destruct (register_taken ep2 (insert_user (registered ep1 env1 (texts request1)) d)
              env2 request2 (registered ep1 env1 (texts request1)))
    as [Hvalid (r2 & Hrun2 & Hst2)].
  { simpl. apply elem_of_app. right. apply list_elem_of_here. }
  { exact Hsame. }
  split; [exact Hvalid|]. split; [by exists r2|].
  intros data2 ->. exists r2. split; [done|].
  destruct Hst2 as [?|H500]; [done|].
  by apply register_object in Hrun2.
Qed.

End RegistrationFacts.

(** ** Products: pagination and prices *)
Section ProductFacts.
Context `{Builtins} `{Pymongo}.
Variable cfg : Config.

Implicit Types (d : Database) (env : Env) (user : User).





Local Arguments py_float : simpl never.

(** Every product [create_product] inserts has passed the test
    [price <= 0] with a negative answer. *)
Lemma create_product_price_checked db env data user db' msg p :
  create_product cfg db env data user = (db', respond 201 (ProductOk msg p)) ->
  (p_price p <=? 0)%float = false.
Proof.
  unfold create_product, caught, price_errors, getitem, server_error, respond.
  intros Hrun.
  destruct db as [d|]; [|done].
  destruct (no_data data); [done|].
  destruct (default ∅ data !! "price") as [v|] eqn:Hv; simpl in Hrun.
  - destruct (py_float v) as [e|x] eqn:Hx; simpl in Hrun.
    + destruct e; simpl in Hrun;
        try done;
        by (rewrite bool_decide_false in Hrun
              by (intros Habs; apply (f_equal (lookup "price")) in Habs;
                  by rewrite lookup_insert_eq, lookup_empty in Habs)).
    + destruct (x <=? 0)%float eqn:Hle; simpl in Hrun.
      * by (rewrite bool_decide_false in Hrun
              by (intros Habs; apply (f_equal (lookup "price")) in Habs;
                  by rewrite lookup_insert_eq, lookup_empty in Habs)).
      * destruct (negb _); simpl in Hrun; [done|].
        destruct (default ∅ data !! "title") as [t|]; simpl in Hrun; [|done].
        destruct (strip_val t); simpl in Hrun; [done|].
        destruct (default ∅ data !! "description") as [ds|]; simpl in Hrun; [|done].
        destruct (strip_val ds); simpl in Hrun; [done|].
        injection Hrun as <- <- <-. exact Hle.
  - rewrite bool_decide_false in Hrun
      by (intros Habs; apply (f_equal (lookup "price")) in Habs;
          by rewrite lookup_insert_eq, lookup_empty in Habs).
    done.
Qed.

Lemma find_product_update_one product_id set coll old :
  (forall p, p_id (set p) = p_id p) ->
  find_product product_id coll = Some old ->
  find_product product_id (update_one product_id set coll) = Some (set old).
Proof.
  intros Hid. unfold find_product.
  induction coll as [|p coll IH]; simpl; [done|].
  destruct (String.eqb (p_id p) product_id) eqn:Hp; simpl.
  - intros [= ->]. by rewrite Hid, Hp.
  - rewrite Hp. exact IH.
Qed.

(** C5, at the failing input: a creation whose price is the JSON number
    [NaN] passes the test [price <= 0], so the product is inserted with a
    price that is not greater than zero; an update with that price is
    written in the same way. *)
Theorem C5_nan_price_reaches_the_store d env user :
  let data : gmap string pyval :=
    {[ "title" := VStr "Lamp"; "description" := VStr "Desk lamp";
       "price" := VFloat nan ]} in
  let created :=
    {| p_oid := new_oid env; p_id := new_uuid env;
       p_title := "Lamp"; p_description := "Desk lamp"; p_price := nan;
       p_image := VStr "https://via.placeholder.com/300x200";
       p_createdBy := oid_str (u_id user); p_createdAt := now env;
       p_updatedAt := None |} in
  create_product cfg (Some d) env (Some data) user
    = (Some (insert_product created d),
       respond 201 (ProductOk "Product created successfully" created)) /\
  (0 <? p_price created)%float = false /\
  (forall product_id old,
     find_product product_id (products d) = Some old ->
     exists d' updated,
       update_product cfg (Some d) env product_id
         (Some {[ "price" := VFloat nan ]}) user
       = (Some d', respond 200 (ProductOk "Product updated successfully" updated)) /\
       find_product product_id (products d') = Some updated /\
       p_price updated = nan /\
       (0 <? p_price updated)%float = false).
Proof.
  intros data created. split; [|split].
  - vm_compute. reflexivity.
  - reflexivity.
  - intros product_id old Hold.
    unfold update_product, caught, stripped_field, checked_price, no_data.
    rewrite bool_decide_false, Hold.
    2:{ intros Habs. apply (f_equal (lookup "price")) in Habs.
        by rewrite lookup_singleton_eq, lookup_empty in Habs. }
    simpl.
    repeat (first [ rewrite lookup_singleton_eq
                  | rewrite lookup_singleton_ne by done ]; simpl).
    erewrite find_product_update_one by (done || exact Hold).
    eexists _, _. split; [reflexivity|]. simpl.
    erewrite find_product_update_one by (done || exact Hold).
    done.
Qed.

End ProductFacts.

(** * Concrete runs *)
Module Scenario.
Import Sample.

Definition config : Config :=
  {| SECRET_KEY := "fallback-secret-key-change-in-production";
     ENV := "development" |}.

Definition empty_db : Database := {| users := []; products := [] |}.

(** Two requests, one second apart, on the third of November 2026. *)
Definition first_env : Env :=
  {| now := 1793750400; new_oid := "64f1a2b3c4d5e6f708192a3b";
     new_uuid := "0b5e6c1e-7d3a-4c55-9f0e-2a1d4c6b8e90" |}.

Definition second_env : Env :=
  {| now := 1793750401; new_oid := "64f1a2b3c4d5e6f708192a3c";
     new_uuid := "5a0d9c3f-21b4-4e8a-8c77-6f2b1e0d4a15" |}.

Definition first_request : gmap string string :=
  {[ "name" := "Al"; "email" := "User@X.com"; "password" := "secret1" ]}.

(** The same address in lower case with a password of three characters. *)
Definition short_password_request : gmap string string :=
  {[ "name" := "Al"; "email" := "user@x.com"; "password" := "abc" ]}.

Definition second_request : gmap string string :=
  {[ "name" := "Alan"; "email" := " user@x.com "; "password" := "secret2" ]}.

(** The same address again, in a body for [/api/register]. *)
Definition legacy_duplicate : gmap string string :=
  <["fullName" := "Alan Doe"]> (<["phone" := "123-456-7890"]>
    (<["confirmPassword" := "secret2"]> second_request)).

Definition al : User :=
  {| u_id := "64f1a2b3c4d5e6f708192a3b"; u_name := Some "Al";
     u_fullName := None; u_email := "user@x.com"; u_phone := None;
     u_password := "plain$secret1"; u_createdAt := 1793750400;
     u_isActive := true |}.

Definition al_db : Database := {| users := [al]; products := [] |}.

Definition al_token : string :=
  issue_token config first_env "64f1a2b3c4d5e6f708192a3b" "user@x.com".

Definition al_claims : Claims :=
  {| claim_user_id := "64f1a2b3c4d5e6f708192a3b"; claim_email := "user@x.com";
     claim_exp := 1793750400 + 24 * 3600 |}.

(** Twelve products created one second apart. *)
Definition product (n : nat) : Product :=
  {| p_oid := "64f1a2b3c4d5e6f708192a40";
     p_id := Sample.Z_to_string (Z.of_nat n);
     p_title := "Lamp"; p_description := "Desk lamp";
     p_price := 0x1.3fae147ae147bp+3;
     p_image := VStr "https://via.placeholder.com/300x200";
     p_createdBy := "64f1a2b3c4d5e6f708192a3b";
     p_createdAt := 1793750400 + Z.of_nat n; p_updatedAt := None |}.




End Scenario.

Section Runs.
Import Scenario.

Example first_registration :
  register_jwt config (Some empty_db) first_env (object first_request)
  = (Some al_db,
     respond 201
       (AuthOk "User registered successfully" al_token
          "64f1a2b3c4d5e6f708192a3b" "Al" "user@x.com" (Some 1793750400%Z))).
Proof. vm_compute. reflexivity. Qed.

(** C1, refuted as stated: a header whose scheme word is [Basic] and whose
    token segment is a validly signed, unexpired token is not rejected; the
    gate resolves the user and the wrapped operation answers 200. *)
Lemma C1_basic_scheme_reaches_operation :
  authenticate config (Some al_db) second_env (Some ("Basic " +:+ al_token))
    = inr al /\
  auth_middleware config (verify_token (Some al_db)) (Some al_db) second_env
    (Some ("Basic " +:+ al_token))
    = (Some al_db,
       respond 200 (VerifyOk "64f1a2b3c4d5e6f708192a3b" "Al" "user@x.com")).
Proof. split; vm_compute; reflexivity. Qed.

Lemma C1_scheme_word_witness :
  no_blank "Basic" = true /\
  authenticate config (Some al_db) second_env (Some ("Basic" +:+ " " +:+ al_token))
    = authenticate config (Some al_db) second_env (Some ("Bearer " +:+ al_token)) /\
  (truthy "Basic" = true ->
   authenticate config (Some al_db) second_env (Some "Basic")
     = inl (respond 401 (Error "Invalid token format")) /\
   auth_middleware config (verify_token (Some al_db)) (Some al_db) second_env
     (Some "Basic")
     = (Some al_db, respond 401 (Error "Invalid token format"))).
Proof.
  split; [reflexivity|].
  apply (C1_scheme_word_not_inspected config (Some al_db) al_db second_env
           "Basic" al_token (verify_token (Some al_db))).
  reflexivity.
Defined.


(** C7, refuted as stated: after a successful registration of
    [User@X.com], a registration of [user@x.com] with a password of three
    characters is answered with the password error of field validation;
    the answer carries no email error. *)
Lemma C7_invalid_duplicate_gets_validation_error :
  register_jwt config (Some empty_db) first_env (object first_request)
  = (Some al_db,
     respond 201
       (AuthOk "User registered successfully" al_token
          "64f1a2b3c4d5e6f708192a3b" "Al" "user@x.com" (Some 1793750400%Z))) /\
  lower (strip (get first_request "email"))
    = lower (strip (get short_password_request "email")) /\
  register_jwt config (Some al_db) second_env (object short_password_request)
  = (Some al_db,
     respond 400
       (ValidationFailed
          {[ "password" := "Password must be at least 6 characters long" ]})) /\
  ({[ "password" := "Password must be at least 6 characters long" ]}
     : gmap string string) !! "email" = None.
Proof. repeat split; vm_compute; reflexivity. Qed.

Lemma C7_duplicate_email_witness :
  lower (strip (get (texts (object first_request)) "email"))
    = lower (strip (get (texts (object legacy_duplicate)) "email")) /\
  status (snd (register_jwt config (Some empty_db) first_env (object first_request)))
    = 201%Z /\
  validate_json LegacyRegister (object legacy_duplicate) = inr ∅ /\
  register_user config (Some al_db) second_env (object legacy_duplicate)
  = (Some al_db,
     respond 400 (ValidationFailed {[ "email" := "Email already registered" ]})).
Proof.
  assert (validate_json LegacyRegister (object legacy_duplicate) = inr ∅)
    as Hvalid by (vm_compute; reflexivity).
  split; [vm_compute; reflexivity|]. split; [vm_compute; reflexivity|].
  split; [exact Hvalid|].
  destruct (C7_duplicate_email_conflict config AuthRegister LegacyRegister empty_db
              first_env second_env (object first_request)
              (object legacy_duplicate) (Some al_db)
              (respond 201
                 (AuthOk "User registered successfully" al_token
                    "64f1a2b3c4d5e6f708192a3b" "Al" "user@x.com"
                    (Some 1793750400%Z))))
    as [Hconflict _];
    [vm_compute; reflexivity | apply first_registration | reflexivity |].
  exact (Hconflict Hvalid).
Defined.

(** A later registration of the same email whose name is the number 5: the
    validator raises, the answer is a 500 and nothing is inserted. *)
Example ill_typed_duplicate :
  register_jwt config (Some al_db) second_env
    (JDict {[ "name" := JInt 5; "email" := JStr "user@x.com";
              "password" := JStr "secret2" ]})
  = (Some al_db, respond 500 (ServerError (Some AttributeError))).
Proof. vm_compute. reflexivity. Qed.

Lemma C8_deleted_user_witness :
  truthy al_token = true /\ no_blank al_token = true /\
  jwt_decode al_token (SECRET_KEY config) [HS256] (now second_env)
    = Decoded al_claims /\
  oid_parse (claim_user_id al_claims) = Some "64f1a2b3c4d5e6f708192a3b" /\
  find_user_by_id "64f1a2b3c4d5e6f708192a3b" (users empty_db) = None /\
  authenticate config (Some empty_db) second_env (Some ("Bearer " +:+ al_token))
  = inl (respond 401 (Error "User not found")).
Proof.
  assert (jwt_decode al_token (SECRET_KEY config) [HS256] (now second_env)
          = Decoded al_claims) as Hdecode by (vm_compute; reflexivity).
  assert (no_blank al_token = true) as Hnb by (vm_compute; reflexivity).
  split; [reflexivity|]. split; [exact Hnb|]. split; [exact Hdecode|].
  split; [reflexivity|]. split; [reflexivity|].
  apply (C8_deleted_user_rejected config empty_db second_env al_token al_claims
           "64f1a2b3c4d5e6f708192a3b");
    [reflexivity | exact Hnb | exact Hdecode | reflexivity | reflexivity].
Defined.



End Runs.

(** * Further properties of the handlers *)

Import Routes.

(** ** The auth gate: what passes and what is rejected *)
Section GateFacts.
Context `{Jwt}.
Variable cfg : Config.

Implicit Types (d : Database) (env : Env) (u : User).

(** A request passes the gate only with a stored user: the second piece of
    the header is a token that [jwt.decode] accepts with the configured
    secret, its subject parses to the identifier of the user, and the user
    is in the collection. *)
Theorem gate_passes_only_token_subjects db env header u :
  authenticate cfg db env header = inr u ->
  exists d text token payload,
    db = Some d /\ header = Some text /\
    split " " text !! 1%nat = Some token /\
    jwt_decode token (SECRET_KEY cfg) [HS256] (now env) = Decoded payload /\
    oid_parse (claim_user_id payload) = Some (u_id u) /\
    u ∈ users d.
Proof.
  unfold authenticate. intros Hrun.
  destruct db as [d|]; [|done].
  destruct header as [text|]; [|done].
  destruct (truthy text); [|done].
  destruct (split " " text !! 1%nat) as [token|] eqn:Hpiece; [|done].
  simpl in Hrun. destruct (truthy token); [|done]. simpl in Hrun.
  destruct (jwt_decode _ _ _ _) as [payload| |] eqn:Hdecode; [|done|done].
  destruct (oid_parse _) as [oid|] eqn:Hoid; [|done].
  destruct (find_user_by_id _ _) as [found|] eqn:Hfind; [|done].
  injection Hrun as ->.
  apply find_some in Hfind as [Hin Heq]. apply String.eqb_eq in Heq. subst oid.
  exists d, text, token, payload. repeat split; try done.
  by apply list_elem_of_In.
Qed.

(** Every rejection of the gate is the 503 of a missing database or a 401
    with one of six messages; the database is looked at first. *)
Theorem gate_rejections_are_401_or_503 db env header r :
  authenticate cfg db env header = inl r ->
  (db = None /\ r = respond 503 (Error "Database unavailable")) \/
  (is_Some db /\ status r = 401%Z /\
   exists msg, payload r = Error msg /\
     msg ∈ ["Token is missing"; "Invalid token format"; "Token has expired";
            "Token is invalid"; "Token validation failed"; "User not found"]).
Proof.
  unfold authenticate, respond. intros Hrun.
  destruct db as [d|]; [right|left; split; congruence].
  split; [by eexists|].
  destruct header as [text|]; simpl in Hrun.
  - destruct (truthy text); simpl in Hrun.
    + destruct (split " " text !! 1%nat) as [token|]; simpl in Hrun.
      * destruct (truthy token); simpl in Hrun.
        -- destruct (jwt_decode _ _ _ _) as [payload| |].
           ++ destruct (oid_parse _) as [oid|].
              ** destruct (find_user_by_id _ _); [done|].
                 injection Hrun as <-. split; [done|]. eexists. split; [done|].
                 set_solver.
              ** injection Hrun as <-. split; [done|]. eexists. split; [done|].
                 set_solver.
           ++ injection Hrun as <-. split; [done|]. eexists. split; [done|].
              set_solver.
           ++ injection Hrun as <-. split; [done|]. eexists. split; [done|].
              set_solver.
        -- injection Hrun as <-. split; [done|]. eexists. split; [done|].
           set_solver.
      * injection Hrun as <-. split; [done|]. eexists. split; [done|].
        set_solver.
    + injection Hrun as <-. split; [done|]. eexists. split; [done|]. set_solver.
  - injection Hrun as <-. split; [done|]. eexists. split; [done|]. set_solver.
Qed.

(** An absent header, an empty header, a scheme word followed by a blank
    only, and a header with two blanks after the scheme word all count as a
    missing token, whatever follows the two blanks. *)
Theorem blank_token_segment_is_missing d env scheme rest :
  no_blank scheme = true ->
  let missing : response + User := inl (respond 401 (Error "Token is missing")) in
  authenticate cfg (Some d) env None = missing /\
  authenticate cfg (Some d) env (Some "") = missing /\
  authenticate cfg (Some d) env (Some (scheme +:+ " ")) = missing /\
  authenticate cfg (Some d) env (Some (scheme +:+ " " +:+ " " +:+ rest)) = missing.
Proof.
  intros Hs missing. split; [done|]. split; [done|]. split.
  - rewrite authenticate_header by (by destruct scheme).
    rewrite <- (app_nil_r (scheme +:+ " ")), app_assoc.
    by rewrite split_scheme.
  - rewrite authenticate_header by (by destruct scheme).
    rewrite split_scheme by done.
    by change (split " " (" " +:+ rest)) with ("" :: split " " rest).
Qed.

(** Only the second piece of the header is read: what follows the token
    after a further blank does not change the outcome. *)
Theorem segments_after_token_are_ignored db env scheme token rest :
  no_blank scheme = true -> no_blank token = true ->
  authenticate cfg db env (Some (scheme +:+ " " +:+ token +:+ " " +:+ rest))
  = authenticate cfg db env (Some (scheme +:+ " " +:+ token)).
Proof.
  intros Hs Ht. destruct db as [d|]; [|done].
  rewrite !authenticate_header by (by destruct scheme).
  rewrite (split_scheme scheme (token +:+ " " +:+ rest)) by done.
  rewrite (split_scheme token rest) by done.
  by rewrite second_piece.
Qed.

End GateFacts.

(** ** The validators: when a mapping is accepted *)
Section AcceptanceFacts.

Implicit Types (data : gmap string string).

Lemma name_error_none label raw :
  name_error label raw = None <-> (2 <= len (strip raw))%Z.
Proof.
  unfold name_error. cbv zeta. destruct (strip raw) as [|c s] eqn:Hs; simpl.
  - unfold len. simpl. split; [done | lia].
  - destruct (Z.ltb_spec (len (String c s)) 2); split; intros; first [done | lia].
Qed.

Lemma email_error_none raw :
  email_error raw = None <-> documented_email (lower (strip raw)).
Proof.
  unfold email_error. cbv zeta.
  destruct (truthy (lower (strip raw))) eqn:Ht; simpl.
  - rewrite <- match_anchored_normalized.
    destruct (match_anchored email_pattern (lower (strip raw))); simpl;
      split; intros; done.
  - apply truthy_false in Ht as ->.
    split; [done | intros Hd; by apply not_documented_empty in Hd].
Qed.

Lemma lower_empty s : lower s = "" <-> s = "".
Proof. destruct s; split; intros; done. Qed.

Lemma registration_valid_iff data :
  validate_registration_data data = ∅ <->
  (2 <= len (strip (get data "fullName")))%Z /\
  documented_email (lower (strip (get data "email"))) /\
  documented_phone (get data "phone") /\
  (6 <= len (get data "password"))%Z /\
  get data "confirmPassword" = get data "password".
Proof.
  rewrite map_empty. split.
  - intros Hall.
    pose proof (Hall "fullName") as Hn. rewrite registration_fullName in Hn.
    pose proof (Hall "email") as He. rewrite registration_email in He.
    pose proof (Hall "phone") as Hp. rewrite registration_phone in Hp.
    pose proof (Hall "password") as Hw. rewrite registration_password in Hw.
    pose proof (Hall "confirmPassword") as Hc. rewrite registration_confirm in Hc.
    apply name_error_none in Hn. apply email_error_none in He.
    apply phone_error_spec in Hp. apply password_error_spec in Hw.
    apply confirm_error_spec in Hc as [_ Hc]. done.
  - intros (Hn & He & Hp & Hw & Hc) k.
    destruct (decide (k = "fullName")) as [->|].
    { rewrite registration_fullName. by apply name_error_none. }
    destruct (decide (k = "email")) as [->|].
    { rewrite registration_email. by apply email_error_none. }
    destruct (decide (k = "phone")) as [->|].
    { rewrite registration_phone. by apply phone_error_spec. }
    destruct (decide (k = "password")) as [->|].
    { rewrite registration_password. by apply password_error_spec. }
    destruct (decide (k = "confirmPassword")) as [->|].
    { rewrite registration_confirm. apply confirm_error_spec. split; [|done].
      rewrite Hc. intros Hempty. rewrite Hempty in Hw. unfold len in Hw.
      simpl in Hw. lia. }
    apply registration_other. rewrite !not_elem_of_cons, elem_of_nil. naive_solver.
Qed.

(** Full registration data is accepted exactly when the trimmed full name
    has two characters or more, the trimmed lower-cased email has the
    documented shape, the phone keeps 10 to 15 digits, the password has six
    characters or more and the confirmation equals it. *)
Theorem registration_accepted_iff data :
  validate_registration_data data = ∅ <->
  (2 <= len (strip (get data "fullName")))%Z /\
  documented_email (lower (strip (get data "email"))) /\
  documented_phone (get data "phone") /\
  (6 <= len (get data "password"))%Z /\
  get data "confirmPassword" = get data "password".
Proof. apply registration_valid_iff. Qed.

Lemma credentials_valid_iff data is_login :
  validate_auth_data data is_login = ∅ <->
  (is_login = true \/ (2 <= len (strip (get data "name")))%Z) /\
  documented_email (lower (strip (get data "email"))) /\
  (6 <= len (get data "password"))%Z.
Proof.
  rewrite map_empty. split.
  - intros Hall.
    pose proof (Hall "email") as He. rewrite auth_email in He.
    pose proof (Hall "password") as Hw. rewrite auth_password in Hw.
    apply email_error_none in He. apply password_error_spec in Hw.
    split; [|done]. destruct is_login; [by left | right].
    pose proof (Hall "name") as Hn. rewrite auth_name in Hn.
    by apply name_error_none in Hn.
  - intros (Hn & He & Hw) k.
    destruct (decide (k = "name")) as [->|].
    { destruct is_login; [apply auth_name_login|].
      rewrite auth_name. apply name_error_none. by destruct Hn. }
    destruct (decide (k = "email")) as [->|].
    { rewrite auth_email. by apply email_error_none. }
    destruct (decide (k = "password")) as [->|].
    { rewrite auth_password. by apply password_error_spec. }
    apply auth_other. rewrite !not_elem_of_cons, elem_of_nil. naive_solver.
Qed.

(** Credentials are accepted exactly when the email has the documented
    shape and the password has six characters or more; outside login mode
    the trimmed name needs two characters, in login mode the name is not
    looked at. *)
Theorem credentials_accepted_iff data is_login :
  validate_auth_data data is_login = ∅ <->
  (is_login = true \/ (2 <= len (strip (get data "name")))%Z) /\
  documented_email (lower (strip (get data "email"))) /\
  (6 <= len (get data "password"))%Z.
Proof. apply credentials_valid_iff. Qed.

(** A field that is missing, empty or (for the trimmed fields) blank is
    reported as required, whatever the other fields hold; a password made
    of blanks is not: it is judged by its length. *)
Theorem blank_fields_are_required data :
  (strip (get data "fullName") = "" ->
   validate_registration_data data !! "fullName" = Some "Full Name is required") /\
  (strip (get data "name") = "" ->
   validate_auth_data data false !! "name" = Some "Name is required") /\
  (strip (get data "email") = "" ->
   validate_registration_data data !! "email" = Some "Email is required" /\
   forall is_login,
     validate_auth_data data is_login !! "email" = Some "Email is required") /\
  (strip (get data "phone") = "" ->
   validate_registration_data data !! "phone" = Some "Phone number is required") /\
  (get data "password" = "" ->
   validate_registration_data data !! "password" = Some "Password is required" /\
   forall is_login,
     validate_auth_data data is_login !! "password" = Some "Password is required") /\
  (get data "confirmPassword" = "" ->
   validate_registration_data data !! "confirmPassword"
   = Some "Confirm Password is required") /\
  (get data "password" <> "" ->
   validate_registration_data data !! "password" <> Some "Password is required").
Proof.
  split; [|split; [|split; [|split; [|split; [|split]]]]].
  - intros Hb. rewrite registration_fullName. unfold name_error. cbv zeta.
    by rewrite Hb.
  - intros Hb. rewrite auth_name. unfold name_error. cbv zeta. by rewrite Hb.
  - intros Hb. split; [|intros is_login];
      rewrite ?registration_email, ?auth_email; unfold email_error; cbv zeta;
      by rewrite Hb.
  - intros Hb. rewrite registration_phone. unfold phone_error. cbv zeta.
    by rewrite Hb.
  - intros Hb. split; [|intros is_login];
      rewrite ?registration_password, ?auth_password; unfold password_error;
      by rewrite Hb.
  - intros Hb. rewrite registration_confirm. unfold confirm_error. by rewrite Hb.
  - intros Hne. rewrite registration_password. unfold password_error.
    destruct (get data "password"); [done|]. simpl. by destruct (_ <? _)%Z.
Qed.

(** On a body whose members are all strings the validators raise nothing,
    in login mode or not, and they report what [Validators] gives for the
    texts of the members. *)
Theorem validators_agree_on_string_members data is_login :
  Json.validate_auth_data (object data) is_login
  = inr (validate_auth_data data is_login) /\
  Json.validate_registration_data (object data)
  = inr (validate_registration_data data).
Proof.
  split.
  - rewrite <- (texts_object data) at 2. unfold texts, object.
    apply json_auth_texts; intros; apply textual_object.
  - rewrite <- (texts_object data) at 2. unfold texts, object.
    apply json_registration_texts; apply textual_object.
Qed.

End AcceptanceFacts.

(** ** Registration: its effect on the store *)
Section RegistrationEffects.
Context `{Jwt} `{Werkzeug}.
Variable cfg : Config.

Implicit Types (d : Database) (env : Env) (data : gmap string string) (u : User)
  (request : json).

Lemma len_strip_nonempty raw : (2 <= len (strip raw))%Z -> raw <> "".
Proof. intros Hl ->. unfold len in Hl. simpl in Hl. lia. Qed.

Lemma documented_email_nonempty raw :
  documented_email (lower (strip raw)) -> raw <> "".
Proof. intros Hd ->. by apply not_documented_empty in Hd. Qed.

Lemma len_nonempty raw : (6 <= len raw)%Z -> raw <> "".
Proof. intros Hl ->. unfold len in Hl. simpl in Hl. lia. Qed.


Lemma find_user_by_email_none email coll :
  find_user_by_email email coll = None -> email ∉ u_email <$> coll.
Proof.
  unfold find_user_by_email. intros Hnone Hin.
  apply list_elem_of_fmap in Hin as (u & -> & Hu).
  apply list_elem_of_In in Hu. apply (find_none _ _ Hnone) in Hu.
  by rewrite String.eqb_refl in Hu.
Qed.

(** The registration routes keep the stored emails pairwise distinct. *)
Theorem registration_keeps_emails_distinct ep d env request d' r :
  NoDup (u_email <$> users d) ->
  register cfg ep (Some d) env request = (Some d', r) ->
  NoDup (u_email <$> users d').
Proof.
  intros Hnodup Hrun.
  apply register_outcomes in Hrun
    as [(_ & _ & Hfind & Hdb & _)|[_ Hdb]]; simplify_eq/=; [|done].
  rewrite fmap_app. apply NoDup_app. split; [done|]. split.
  - intros e He Hin. apply list_elem_of_singleton in Hin. subst e.
    by apply find_user_by_email_none in Hfind.
  - apply NoDup_singleton.
Qed.

(** A user stored by [/api/register] has a phone made of 10 to 15 decimal
    digits, a trimmed full name of two characters or more, and an email of
    the documented shape. *)
Theorem legacy_registration_stores_normal_form d env request db' r :
  register_user cfg (Some d) env request = (db', r) ->
  status r = 201%Z ->
  exists u digits full,
    db' = Some (insert_user u d) /\
    u_phone u = Some digits /\ all_chars isdecimal digits = true /\
    10 <= String.length digits <= 15 /\
    u_fullName u = Some full /\ strip full = full /\ (2 <= len full)%Z /\
    documented_email (u_email u).
Proof.
  intros Hrun Hst.
  apply (register_outcomes cfg LegacyRegister) in Hrun
    as [(_ & Hv & _ & -> & _)|[[Hbad|Hbad] _]];
    [|rewrite Hbad in Hst; done|rewrite Hbad in Hst; done].
  simpl in Hv. apply registration_valid_iff in Hv as (Hn & He & [_ Hp] & _).
  exists (registered LegacyRegister env (texts request)). eexists _, _.
  split; [done|]. split; [done|]. simpl.
  rewrite digits_strip. split; [by apply all_filter|].
  split; [exact Hp|]. split; [done|]. split; [apply strip_idem|]. done.
Qed.

End RegistrationEffects.

(** ** Logging in, and using the token of a registration *)
Section LoginFacts.
Context `{Jwt} `{Werkzeug}.
Variable cfg : Config.

Implicit Types (d : Database) (env : Env) (data : gmap string string) (u : User).

Lemma find_snoc {A : Type} (f : A -> bool) (l : list A) (x : A) :
  List.find f l = None -> f x = true -> List.find f (l ++ [x]) = Some x.
Proof.
  induction l as [|y l IH]; simpl; intros Hnone Hx; [by rewrite Hx|].
  destruct (f y); [done | auto].
Qed.

Lemma login_members data :
  validate_auth_data data true = ∅ ->
  data <> ∅ /\
  data !! "email" = Some (get data "email") /\
  data !! "password" = Some (get data "password").
Proof.
  intros Hv. apply credentials_valid_iff in Hv as (_ & He & Hp).
  assert (data !! "email" = Some (get data "email")) as Hm
    by eauto using get_present, documented_email_nonempty.
  split; [|split; [done|]].
  - intros ->. by rewrite lookup_empty in Hm.
  - eauto using get_present, len_nonempty.
Qed.

(** After a registration on either route, the same email in any casing or
    padding and the same password log in on both login routes, provided
    the hasher accepts the hash it made for that password; the answers
    carry the identifier and the name given at registration. *)
Theorem login_after_registration ep d env1 env2 request1 data2 db' r :
  register cfg ep (Some d) env1 request1 = (db', r) ->
  status r = 201%Z ->
  lower (strip (get data2 "email"))
  = lower (strip (get (texts request1) "email")) ->
  get data2 "password" = get (texts request1) "password" ->
  check_password_hash
    (generate_password_hash (get (texts request1) "password"))
    (get (texts request1) "password") = true ->
  let u := registered ep env1 (texts request1) in
  db' = Some (insert_user u d) /\
  login_jwt cfg db' env2 (Some data2)
  = (db', respond 200
            (AuthOk "Login successful"
               (issue_token cfg env2 (oid_str (u_id u)) (u_email u))
               (oid_str (u_id u)) (display_name u) (u_email u) None)) /\
  login_user cfg db' (Some data2)
  = (db', answer_with 200
            (LoggedIn (oid_str (u_id u)) (full_name u) (u_email u)
               (default "" (u_phone u)))).
Proof.
  intros Hrun Hst Hemail Hpw Hhash u.
  apply register_outcomes in Hrun
    as [(_ & Hv & Hfind & -> & _)|[[Hbad|Hbad] _]];
    [|rewrite Hbad in Hst; done|rewrite Hbad in Hst; done].
  set (data1 := texts request1) in *.
  split; [done|].
  assert (documented_email (lower (strip (get data1 "email"))) /\
          (6 <= len (get data1 "password"))%Z) as [Hdoc Hlen].
  { destruct ep; simpl in Hv.
    - by apply credentials_valid_iff in Hv as (_ & ? & ?).
    - by apply registration_valid_iff in Hv as (_ & ? & _ & ? & _). }
  assert (validate_auth_data data2 true = ∅) as Hv2.
  { apply credentials_valid_iff. rewrite Hemail, Hpw. auto. }
  destruct (login_members data2 Hv2) as (Hne2 & He2 & Hp2).
  change (registered ep env1 data1) with u.
  assert (u_email u = lower (strip (get data1 "email"))) as Hue by done.
  assert (u_password u = generate_password_hash (get data1 "password")) as Hup
    by done.
  clearbody u.
  assert (find_user_by_email (lower (strip (get data2 "email"))) (users d ++ [u])
          = Some u) as Hfound.
  { rewrite Hemail. apply find_snoc; [exact Hfind|].
    rewrite Hue. apply String.eqb_refl. }
  split.
  - unfold login_jwt, caught, getitem, no_data.
    rewrite bool_decide_false by done. simpl.
    rewrite Hv2, bool_decide_true by done. simpl.
    rewrite He2. simpl. rewrite Hfound. rewrite Hp2. simpl.
    by rewrite Hup, Hpw, Hhash.
  - assert (truthy (get data2 "email") = true) as Hte
      by (apply truthy_true, documented_email_nonempty; by rewrite Hemail).
    assert (truthy (get data2 "password") = true) as Htp
      by (apply truthy_true, len_nonempty; by rewrite Hpw).
    unfold login_user, getitem, no_data. simpl.
    rewrite bool_decide_false, Hte, Htp by done. simpl.
    rewrite He2, Hfound, Hp2. simpl. by rewrite Hup, Hpw, Hhash.
Qed.


(** The token of a registration opens the gate for the next 24 hours: with
    a well-formed identifier that no stored user has yet, [/api/auth/verify]
    answers 200 with the identifier, name and email of the registration. *)
Theorem registered_token_passes_the_gate
    d env later request db' msg token id name email created :
  register_jwt cfg (Some d) env request
    = (db', respond 201 (AuthOk msg token id name email created)) ->
  oid_parse (new_oid env) = Some (new_oid env) ->
  find_user_by_id (new_oid env) (users d) = None ->
  (now later <= now env + 24 * 3600)%Z ->
  auth_middleware cfg (verify_token db') db' later (Some ("Bearer " +:+ token))
  = (db', respond 200 (VerifyOk id name email)).
Proof.
  intros Hrun Hoid Hfresh Hle.
  apply (register_outcomes cfg AuthRegister) in Hrun
    as [(_ & _ & _ & -> & Hanswer)|[[Hbad|Hbad] _]]; [|done|done].
  unfold registration_answer, respond in Hanswer.
  injection Hanswer as -> -> -> -> -> ->.
  set (data := texts request).
  pose (claims :=
          {| claim_user_id := oid_str (new_oid env);
             claim_email := lower (strip (get data "email"));
             claim_exp := (now env + hours 24)%Z |}).
  destruct (jwt_token_shape claims (SECRET_KEY cfg) HS256) as [Hne Hnb].
  unfold auth_middleware, issue_token. fold claims.
  rewrite authenticate_bearer, resolve_issued by done.
  assert ((claim_exp claims <? now later)%Z = false) as ->
    by (apply Z.ltb_ge; exact Hle).
  simpl. unfold oid_str at 1. rewrite Hoid.
  unfold find_user_by_id in *.
  rewrite (find_snoc _ _ (registered AuthRegister env data) Hfresh)
    by (simpl; apply String.eqb_refl).
  reflexivity.
Qed.

End LoginFacts.

(** ** The product listing *)
Section ListingFacts.
Context `{Builtins} `{Pymongo}.
Variable cfg : Config.

Implicit Types (d : Database) (args : gmap string string) (user : User).








End ListingFacts.

(** ** Creating products *)
Section CreationFacts.
Context `{Builtins}.
Variable cfg : Config.

Implicit Types (d : Database) (env : Env) (user : User)
  (data : gmap string pyval).

Local Arguments py_float : simpl never.

Lemma insert_nonempty (errors : gmap string string) k v : <[k := v]> errors <> ∅.
Proof.
  intros Habs. apply (f_equal (lookup k)) in Habs.
  by rewrite lookup_insert_eq, lookup_empty in Habs.
Qed.

Lemma strip_val_stripped v s : strip_val v = inr s -> strip s = s.
Proof. destruct v; simpl; intros [= <-]. apply strip_idem. Qed.

Lemma create_product_outcomes d env request user db' r :
  create_product cfg (Some d) env request user = (db', r) ->
  (exists p,
     db' = Some (insert_product p d) /\
     r = respond 201 (ProductOk "Product created successfully" p) /\
     p_oid p = new_oid env /\ p_id p = new_uuid env /\
     p_createdBy p = oid_str (u_id user) /\ p_createdAt p = now env /\
     p_updatedAt p = None /\
     strip (p_title p) = p_title p /\
     strip (p_description p) = p_description p /\
     (p_price p <=? 0)%float = false) \/
  (db' = Some d /\ (status r = 400%Z \/ status r = 500%Z)).
Proof.
  unfold create_product, caught, price_errors, getitem, server_error, respond.
  intros Hrun.
  destruct (no_data request); [right; by simplify_eq/=; auto|].
  destruct (default ∅ request !! "price") as [v|] eqn:Hv; simpl in Hrun.
  - destruct (py_float v) as [e|x] eqn:Hx; simpl in Hrun.
    + right. destruct e; simpl in Hrun;
        rewrite ?bool_decide_false in Hrun by apply insert_nonempty;
        simplify_eq/=; auto.
    + destruct (x <=? 0)%float eqn:Hle; simpl in Hrun.
      * right. rewrite bool_decide_false in Hrun by apply insert_nonempty.
        simplify_eq/=; auto.
      * destruct (negb _); simpl in Hrun; [right; simplify_eq/=; by auto|].
        destruct (default ∅ request !! "title") as [t|]; simpl in Hrun;
          [|right; simplify_eq/=; by auto].
        destruct (strip_val t) as [|title] eqn:Ht; simpl in Hrun;
          [right; simplify_eq/=; by auto|].
        destruct (default ∅ request !! "description") as [ds|]; simpl in Hrun;
          [|right; simplify_eq/=; by auto].
        destruct (strip_val ds) as [|description] eqn:Hd; simpl in Hrun;
          [right; simplify_eq/=; by auto|].
        left. simplify_eq/=. eexists. split; [reflexivity|]. simpl.
        repeat split; eauto using strip_val_stripped.
  - right. rewrite bool_decide_false in Hrun by apply insert_nonempty.
    simplify_eq/=; auto.
Qed.

(** [create_product] writes only with its 201; every other answer is a 400
    or a 500 and leaves the store as it is. The product it appends carries
    the identifiers and the instant of the request and the identifier of
    the caller, a trimmed title and description, no update instant, and a
    price for which [price <= 0] is false. *)
Theorem creation_writes_only_with_201 d env request user db' r :
  create_product cfg (Some d) env request user = (db', r) ->
  (exists p,
     db' = Some (insert_product p d) /\
     r = respond 201 (ProductOk "Product created successfully" p) /\
     p_oid p = new_oid env /\ p_id p = new_uuid env /\
     p_createdBy p = oid_str (u_id user) /\ p_createdAt p = now env /\
     p_updatedAt p = None /\
     strip (p_title p) = p_title p /\
     strip (p_description p) = p_description p /\
     (p_price p <=? 0)%float = false) \/
  (db' = Some d /\ (status r = 400%Z \/ status r = 500%Z)).
Proof. apply create_product_outcomes. Qed.

(** A price that converts to a float with [price <= 0], and so a price that
    is absent, is answered with "Price must be a positive number"; a price
    on which [float] raises [ValueError] or [TypeError] with "Price must be
    a valid number". Nothing is stored in either case. *)
Theorem price_rejections d env data user :
  data <> ∅ ->
  (forall x,
     py_float (default (VInt 0) (data !! "price")) = inr x ->
     (x <=? 0)%float = true ->
     exists errors,
       create_product cfg (Some d) env (Some data) user
         = (Some d, respond 400 (ValidationFailed errors)) /\
       errors !! "price" = Some "Price must be a positive number") /\
  (data !! "price" = None ->
   exists errors,
     create_product cfg (Some d) env (Some data) user
       = (Some d, respond 400 (ValidationFailed errors)) /\
     errors !! "price" = Some "Price must be a positive number") /\
  (py_float (default (VInt 0) (data !! "price")) = inl ValueError \/
   py_float (default (VInt 0) (data !! "price")) = inl TypeError ->
   exists errors,
     create_product cfg (Some d) env (Some data) user
       = (Some d, respond 400 (ValidationFailed errors)) /\
     errors !! "price" = Some "Price must be a valid number").
Proof.
  intros Hne.
  assert (forall x,
     py_float (default (VInt 0) (data !! "price")) = inr x ->
     (x <=? 0)%float = true ->
     exists errors,
       create_product cfg (Some d) env (Some data) user
         = (Some d, respond 400 (ValidationFailed errors)) /\
       errors !! "price" = Some "Price must be a positive number") as Hlow.
  { intros x Hx Hle. unfold create_product, caught, price_errors, no_data.
    rewrite bool_decide_false by done. simpl. rewrite Hx, Hle. simpl.
    rewrite bool_decide_false by apply insert_nonempty. simpl.
    eexists. split; [reflexivity|]. apply lookup_insert_eq. }
  split; [exact Hlow|]. split.
  - intros Hnone. apply (Hlow 0%float); [|reflexivity].
    rewrite Hnone. reflexivity.
  - intros Hraise. unfold create_product, caught, price_errors, no_data.
    rewrite bool_decide_false by done. simpl.
    destruct Hraise as [-> | ->]; simpl;
      rewrite bool_decide_false by apply insert_nonempty; simpl;
      (eexists; split; [reflexivity|]; apply lookup_insert_eq).
Qed.

End CreationFacts.

(** ** Updating, reading and deleting single products *)
Section SingleProductFacts.
Context `{Builtins}.
Variable cfg : Config.

Implicit Types (d : Database) (env : Env) (user : User) (p : Product).

Local Arguments py_float : simpl never.

(** What an update leaves alone in a product. *)
Definition same_identity (product_id : string) p p' : Prop :=
  p_oid p' = p_oid p /\ p_id p' = p_id p /\
  p_createdBy p' = p_createdBy p /\ p_createdAt p' = p_createdAt p /\
  (p_id p <> product_id -> p' = p).

Lemma update_one_identity product_id update coll :
  Forall2 (same_identity product_id) coll
    (update_one product_id (apply_update update) coll).
Proof.
  induction coll as [|p coll IH]; simpl; [constructor|].
  destruct (String.eqb_spec (p_id p) product_id) as [Heq|Hne].
  - constructor.
    + unfold same_identity. simpl. repeat split; done.
    + clear IH. induction coll; constructor; [|done].
      unfold same_identity. repeat split; done.
  - constructor; [|exact IH]. unfold same_identity. repeat split; done.
Qed.

(** An update never touches the users, never adds, removes or reorders
    products, keeps the identifiers, the creator and the creation instant
    of every product, and leaves every product with another identifier as
    it is; an answer other than 200 leaves the whole store as it is. *)
Theorem update_keeps_identity d env product_id request user db' r :
  update_product cfg (Some d) env product_id request user = (db', r) ->
  exists d',
    db' = Some d' /\ users d' = users d /\
    Forall2 (same_identity product_id) (products d) (products d') /\
    (status r <> 200%Z -> d' = d).
Proof.
  assert (Forall2 (same_identity product_id) (products d) (products d)) as Hrefl.
  { induction (products d); constructor; [|done].
    unfold same_identity. repeat split; done. }
  unfold update_product, caught, stripped_field, checked_price, server_error,
    respond.
  intros Hrun.
  destruct (no_data request); [simplify_eq/=; by exists d|].
  destruct (find_product _ _) as [product|]; [|simplify_eq/=; by exists d].
  destruct (default ∅ request !! "title") as [t|]; simpl in Hrun.
  - destruct (strip_val t) as [|title]; simpl in Hrun;
      [simplify_eq/=; by exists d|].
    destruct (default ∅ request !! "description") as [ds|]; simpl in Hrun.
    + destruct (strip_val ds) as [|description]; simpl in Hrun;
        [simplify_eq/=; by exists d|].
      destruct (default ∅ request !! "price") as [v|]; simpl in Hrun.
      * destruct (py_float v) as [e|x]; simpl in Hrun;
          [destruct e; simplify_eq/=; by exists d|].
        destruct (x <=? 0)%float; simpl in Hrun; [simplify_eq/=; by exists d|].
        destruct (find_product _ _); simplify_eq/=; [|by exists d].
        eexists. split; [done|]. simpl.
        split; [done|]. split; [apply update_one_identity | done].
      * destruct (find_product _ _); simplify_eq/=; [|by exists d].
        eexists. split; [done|]. simpl.
        split; [done|]. split; [apply update_one_identity | done].
    + destruct (default ∅ request !! "price") as [v|]; simpl in Hrun.
      * destruct (py_float v) as [e|x]; simpl in Hrun;
          [destruct e; simplify_eq/=; by exists d|].
        destruct (x <=? 0)%float; simpl in Hrun; [simplify_eq/=; by exists d|].
        destruct (find_product _ _); simplify_eq/=; [|by exists d].
        eexists. split; [done|]. simpl.
        split; [done|]. split; [apply update_one_identity | done].
      * destruct (find_product _ _); simplify_eq/=; [|by exists d].
        eexists. split; [done|]. simpl.
        split; [done|]. split; [apply update_one_identity | done].
  - destruct (default ∅ request !! "description") as [ds|]; simpl in Hrun.
    + destruct (strip_val ds) as [|description]; simpl in Hrun;
        [simplify_eq/=; by exists d|].
      destruct (default ∅ request !! "price") as [v|]; simpl in Hrun.
      * destruct (py_float v) as [e|x]; simpl in Hrun;
          [destruct e; simplify_eq/=; by exists d|].
        destruct (x <=? 0)%float; simpl in Hrun; [simplify_eq/=; by exists d|].
        destruct (find_product _ _); simplify_eq/=; [|by exists d].
        eexists. split; [done|]. simpl.
        split; [done|]. split; [apply update_one_identity | done].
      * destruct (find_product _ _); simplify_eq/=; [|by exists d].
        eexists. split; [done|]. simpl.
        split; [done|]. split; [apply update_one_identity | done].
    + destruct (default ∅ request !! "price") as [v|]; simpl in Hrun.
      * destruct (py_float v) as [e|x]; simpl in Hrun;
          [destruct e; simplify_eq/=; by exists d|].
        destruct (x <=? 0)%float; simpl in Hrun; [simplify_eq/=; by exists d|].
        destruct (find_product _ _); simplify_eq/=; [|by exists d].
        eexists. split; [done|]. simpl.
        split; [done|]. split; [apply update_one_identity | done].
      * destruct (find_product _ _); simplify_eq/=; [|by exists d].
        eexists. split; [done|]. simpl.
        split; [done|]. split; [apply update_one_identity | done].
Qed.

End SingleProductFacts.

(** ** Deleting, and the routes that only read *)
Section StoreFacts.
Context `{Jwt} `{Werkzeug} `{Builtins} `{Pymongo}.
Variable cfg : Config.

Implicit Types (d : Database) (env : Env) (user : User) (p : Product).

Lemma find_product_id product_id coll p :
  find_product product_id coll = Some p -> p_id p = product_id.
Proof.
  intros Hfind. apply find_some in Hfind as [_ Heq]. by apply String.eqb_eq.
Qed.

Lemma delete_one_perm product_id coll p :
  find_product product_id coll = Some p ->
  coll ≡ₚ p :: delete_one product_id coll.
Proof.
  unfold find_product. induction coll as [|q coll IH]; simpl; [done|].
  destruct (String.eqb (p_id q) product_id); [by intros [= ->]|].
  intros Hfind. rewrite (IH Hfind) at 1. apply Permutation_swap.
Qed.

Lemma delete_one_snoc product_id coll p :
  find_product product_id coll = None -> p_id p = product_id ->
  delete_one product_id (coll ++ [p]) = coll.
Proof.
  unfold find_product. intros Hnone Hp.
  induction coll as [|q coll IH]; simpl in *.
  - by rewrite Hp, String.eqb_refl.
  - destruct (String.eqb (p_id q) product_id); [done|]. by rewrite IH.
Qed.

(** A deletion answers 404 and leaves the store as it is when no product
    has the identifier; otherwise it answers 200 with the identifier and
    title of the first such product and removes that one document, and
    nothing else, from the store. *)
Theorem deletion_removes_one_document d product_id user db' a :
  delete_product (Some d) product_id user = (db', a) ->
  (find_product product_id (products d) = None /\
   db' = Some d /\ a = answer_with 404 (Failed "Product not found")) \/
  (exists p d',
     find_product product_id (products d) = Some p /\
     db' = Some d' /\
     a = answer_with 200 (ProductDeleted product_id (p_title p)) /\
     users d' = users d /\
     products d ≡ₚ p :: products d').
Proof.
  unfold delete_product. intros Hrun.
  destruct (find_product product_id (products d)) as [p|] eqn:Hfind;
    simplify_eq/=; [right | by left].
  eexists p, _. split; [done|]. split; [done|].
  rewrite (find_product_id _ _ _ Hfind).
  split; [done|]. split; [done|]. by apply delete_one_perm.
Qed.

(** A product created under an identifier that no stored product has is
    found under it, and deleting it gives back the store as it was before
    the creation, where the identifier is unknown again. *)
Theorem creation_then_deletion_restores_store d env request user reader db' msg p :
  find_product (new_uuid env) (products d) = None ->
  create_product cfg (Some d) env request user
    = (db', respond 201 (ProductOk msg p)) ->
  get_product db' (new_uuid env) reader
    = (db', answer_with 200 (ProductFound p)) /\
  delete_product db' (new_uuid env) reader
    = (Some d, answer_with 200 (ProductDeleted (new_uuid env) (p_title p))) /\
  get_product (Some d) (new_uuid env) reader
    = (Some d, answer_with 404 (Failed "Product not found")).
Proof.
  intros Hfresh Hrun.
  apply create_product_outcomes in Hrun
    as [(q & -> & [= -> ->] & _ & Hid & _)|[_ [Hbad|Hbad]]]; [|done|done].
  assert (find_product (new_uuid env) (products d ++ [q]) = Some q) as Hfound.
  { apply find_snoc; [exact Hfresh|]. rewrite Hid. apply String.eqb_refl. }
  unfold get_product, delete_product. simpl. rewrite Hfound, Hfresh.
  split; [done|]. split; [|done].
  rewrite delete_one_snoc, Hid by done. by destruct d.
Qed.

(** The login routes, the listing, the single reads and the token check
    return the store they were given, whatever the request; so does the
    middleware when it rejects. *)
Theorem reading_routes_never_write db env data args product_id user_id user f
    header rejection :
  fst (login_jwt cfg db env data) = db /\
  fst (login_user cfg db data) = db /\
  fst (verify_token db user) = db /\
  fst (get_products cfg db args user) = db /\
  fst (get_product db product_id user) = db /\
  fst (get_all_users db) = db /\
  fst (get_user cfg db user_id) = db /\
  (authenticate cfg db env header = inl rejection ->
   auth_middleware cfg f db env header = (db, rejection)).
Proof.
  split; [|split; [|split; [|split; [|split; [|split; [|split]]]]]].
  - unfold login_jwt, caught, getitem. destruct db as [d|]; [|done].
    destruct (no_data data); [done|]. destruct (negb _); [done|]. simpl.
    destruct (default ∅ data !! "email"); simpl; [|done].
    destruct (find_user_by_email _ _); simpl; [|done].
    destruct (default ∅ data !! "password"); simpl; [|done].
    by destruct (negb _).
  - unfold login_user, getitem. destruct db as [d|]; [|done].
    destruct (_ || _); [done|].
    destruct (default ∅ data !! "email"); simpl; [|done].
    destruct (find_user_by_email _ _); simpl; [|done].
    destruct (default ∅ data !! "password"); simpl; [|done].
    by destruct (negb _).
  - done.
  - unfold get_products, caught. destruct db as [d|]; [|done].
    destruct (int_arg args "page" 1); simpl; [done|].
    destruct (int_arg args "limit" 10); simpl; [done|].
    by destruct (_ <? _)%Z.
  - unfold get_product. destruct db as [d|]; [|done].
    by destruct (find_product _ _).
  - by destruct db.
  - unfold get_user. destruct db as [d|]; [|done].
    destruct (oid_parse user_id); [|done]. by destruct (find_user_by_id _ _).
  - intros Hrej. unfold auth_middleware. by rewrite Hrej.
Qed.

(** After a registration on either route with a well-formed identifier
    that no stored user has, the user is read back under that identifier
    with the normalized email, and the listing has grown by that one user;
    a text that is not an identifier is answered with a 500. *)
Theorem registered_user_is_listed ep d env request db' r text :
  register cfg ep (Some d) env request = (db', r) ->
  status r = 201%Z ->
  oid_parse (new_oid env) = Some (new_oid env) ->
  find_user_by_id (new_oid env) (users d) = None ->
  let u := registered ep env (texts request) in
  get_user cfg db' (oid_str (new_oid env))
    = (db', answer_with 200 (UserFound (view u))) /\
  v_email (view u) = lower (strip (get (texts request) "email")) /\
  get_all_users db'
    = (db', answer_with 200
              (UserList ((view <$> users d) ++ [view u])
                 (Z.of_nat (length (users d)) + 1))) /\
  (oid_parse text = None -> code (snd (get_user cfg db' text)) = 500%Z).
Proof.
  intros Hrun Hst Hoid Hfresh u.
  apply register_outcomes in Hrun
    as [(_ & _ & _ & -> & _)|[[Hbad|Hbad] _]];
    [|rewrite Hbad in Hst; done|rewrite Hbad in Hst; done].
  change (registered ep env (texts request)) with u.
  assert (find_user_by_id (new_oid env) (users d ++ [u]) = Some u) as Hfound.
  { apply find_snoc; [exact Hfresh|]. simpl. apply String.eqb_refl. }
  split; [|split; [done|split]].
  - unfold get_user, oid_str. rewrite Hoid. simpl. by rewrite Hfound.
  - unfold get_all_users. simpl. rewrite fmap_app, List.length_app, !length_fmap.
    simpl. do 3 f_equal. lia.
  - intros Hbadid. unfold get_user. by rewrite Hbadid.
Qed.

End StoreFacts.

(** * Further concrete runs *)
Module Cases.
Import Sample Scenario.

Definition legacy_request : gmap string string :=
  {[ "fullName" := " Alan Doe "; "email" := "Alan@Y.org";
     "phone" := "(123) 456-7890"; "password" := "secret2";
     "confirmPassword" := "secret2" ]}.

Definition alan : User :=
  {| u_id := "64f1a2b3c4d5e6f708192a3c"; u_name := None;
     u_fullName := Some "Alan Doe"; u_email := "alan@y.org";
     u_phone := Some "1234567890"; u_password := "plain$secret2";
     u_createdAt := 1793750401; u_isActive := true |}.

Definition two_users : Database := {| users := [al; alan]; products := [] |}.

Definition al_login : gmap string string :=
  {[ "email" := " USER@x.com"; "password" := "secret1" ]}.


Definition lamp_request : gmap string pyval :=
  {[ "title" := VStr " Lamp "; "description" := VStr "Desk lamp";
     "price" := VFloat 0x1.3fae147ae147bp+3 ]}.

Definition lamp : Product :=
  {| p_oid := "64f1a2b3c4d5e6f708192a3c";
     p_id := "5a0d9c3f-21b4-4e8a-8c77-6f2b1e0d4a15";
     p_title := "Lamp"; p_description := "Desk lamp";
     p_price := 0x1.3fae147ae147bp+3;
     p_image := VStr "https://via.placeholder.com/300x200";
     p_createdBy := "64f1a2b3c4d5e6f708192a3b";
     p_createdAt := 1793750401; p_updatedAt := None |}.

Definition lamp_db : Database := {| users := [al]; products := [lamp] |}.

Definition free_request : gmap string pyval :=
  {[ "title" := VStr "Lamp"; "description" := VStr "Desk lamp";
     "price" := VInt 0 ]}.

Definition rename_request : gmap string pyval :=
  {[ "title" := VStr " Floor lamp " ]}.


End Cases.

Section MoreRuns.
Import Scenario Cases.

Lemma gate_passes_witness :
  authenticate config (Some al_db) second_env (Some ("Bearer " +:+ al_token))
    = inr al /\
  al ∈ users al_db.
Proof.
  assert (authenticate config (Some al_db) second_env
            (Some ("Bearer " +:+ al_token)) = inr al) as Hrun
    by (vm_compute; reflexivity).
  split; [exact Hrun|].
  destruct (gate_passes_only_token_subjects config _ _ _ _ Hrun)
    as (d & text & token & claims & [= <-] & _ & _ & _ & _ & Hin).
  exact Hin.
Defined.

Lemma gate_rejection_witness :
  authenticate config (Some al_db) second_env (Some "Bearer")
    = inl (respond 401 (Error "Invalid token format")) /\
  status (respond 401 (Error "Invalid token format")) = 401%Z.
Proof.
  assert (authenticate config (Some al_db) second_env (Some "Bearer")
          = inl (respond 401 (Error "Invalid token format"))) as Hrun
    by (vm_compute; reflexivity).
  split; [exact Hrun|].
  destruct (gate_rejections_are_401_or_503 config _ _ _ _ Hrun)
    as [[Hnone _]|(_ & Hst & _)]; [discriminate Hnone | exact Hst].
Defined.

Lemma blank_token_witness :
  no_blank "Bearer" = true /\
  authenticate config (Some al_db) second_env
    (Some ("Bearer" +:+ " " +:+ " " +:+ al_token))
  = inl (respond 401 (Error "Token is missing")).
Proof.
  split; [reflexivity|].
  apply (blank_token_segment_is_missing config al_db second_env "Bearer" al_token).
  reflexivity.
Defined.

Lemma trailing_segment_witness :
  no_blank "Bearer" = true /\ no_blank al_token = true /\
  authenticate config (Some al_db) second_env
    (Some ("Bearer" +:+ " " +:+ al_token +:+ " " +:+ "and more"))
  = authenticate config (Some al_db) second_env
      (Some ("Bearer" +:+ " " +:+ al_token)).
Proof.
  assert (no_blank al_token = true) as Hnb by (vm_compute; reflexivity).
  split; [reflexivity|]. split; [exact Hnb|].
  apply segments_after_token_are_ignored; [reflexivity | exact Hnb].
Defined.

Example legacy_registration :
  register_user config (Some al_db) second_env (object legacy_request)
  = (Some two_users,
     respond 201
       (UserOk "64f1a2b3c4d5e6f708192a3c" "Alan Doe" "alan@y.org" "1234567890"
          1793750401)).
Proof. vm_compute. reflexivity. Qed.


Lemma distinct_emails_witness :
  NoDup (u_email <$> users al_db) /\ NoDup (u_email <$> users two_users).
Proof.
  assert (NoDup (u_email <$> users al_db)) as Hnodup
    by (apply (NoDup_singleton "user@x.com")).
  split; [exact Hnodup|].
  exact (registration_keeps_emails_distinct config LegacyRegister al_db second_env
           (object legacy_request) two_users _ Hnodup legacy_registration).
Defined.

Lemma normal_form_witness :
  exists u digits full,
    Some two_users = Some (insert_user u al_db) /\
    u_phone u = Some digits /\ all_chars isdecimal digits = true /\
    10 <= String.length digits <= 15 /\
    u_fullName u = Some full /\ strip full = full /\ (2 <= len full)%Z /\
    documented_email (u_email u).
Proof.
  exact (legacy_registration_stores_normal_form config al_db second_env
           (object legacy_request) _ _ legacy_registration eq_refl).
Defined.

Lemma login_round_trip_witness :
  login_user config (Some al_db) (Some al_login)
  = (Some al_db,
     answer_with 200
       (LoggedIn "64f1a2b3c4d5e6f708192a3b" "Al" "user@x.com" "")).
Proof.
  destruct (login_after_registration config AuthRegister empty_db first_env
              second_env (object first_request) al_login _ _ first_registration)
    as (_ & _ & Hlegacy);
    [reflexivity | vm_compute; reflexivity | vm_compute; reflexivity
    | vm_compute; reflexivity |].
  exact Hlegacy.
Defined.


Lemma verify_after_registration_witness :
  auth_middleware config (verify_token (Some al_db)) (Some al_db) second_env
    (Some ("Bearer " +:+ al_token))
  = (Some al_db,
     respond 200 (VerifyOk "64f1a2b3c4d5e6f708192a3b" "Al" "user@x.com")).
Proof.
  apply (registered_token_passes_the_gate config empty_db first_env second_env
           (object first_request) (Some al_db) _ al_token _ _ _ _
           first_registration);
    [reflexivity | reflexivity | simpl; lia].
Defined.



Example lamp_creation :
  create_product config (Some al_db) second_env (Some lamp_request) al
  = (Some lamp_db, respond 201 (ProductOk "Product created successfully" lamp)).
Proof. vm_compute. reflexivity. Qed.

Lemma creation_effect_witness :
  create_product config (Some al_db) second_env (Some lamp_request) al
    = (Some lamp_db, respond 201 (ProductOk "Product created successfully" lamp)) /\
  (p_price lamp <=? 0)%float = false.
Proof.
  split; [apply lamp_creation|].
  destruct (creation_writes_only_with_201 config al_db second_env
              (Some lamp_request) al _ _ lamp_creation)
    as [(p & _ & [= <-] & _ & _ & _ & _ & _ & _ & _ & Hprice)|[_ [Hbad|Hbad]]];
    [exact Hprice | discriminate Hbad | discriminate Hbad].
Defined.

Lemma price_rejection_witness :
  free_request <> ∅ /\
  exists errors,
    create_product config (Some al_db) second_env (Some free_request) al
      = (Some al_db, respond 400 (ValidationFailed errors)) /\
    errors !! "price" = Some "Price must be a positive number".
Proof.
  assert (free_request <> ∅) as Hne.
  { intros Habs. apply (f_equal (lookup "price")) in Habs.
    vm_compute in Habs. discriminate Habs. }
  split; [exact Hne|].
  destruct (price_rejections config al_db second_env free_request al Hne)
    as [Hlow _].
  apply (Hlow 0%float); reflexivity.
Defined.

Lemma update_identity_witness :
  exists d',
    fst (update_product config (Some lamp_db) second_env
           "5a0d9c3f-21b4-4e8a-8c77-6f2b1e0d4a15" (Some rename_request) al)
      = Some d' /\
    users d' = users lamp_db /\
    Forall2 (same_identity "5a0d9c3f-21b4-4e8a-8c77-6f2b1e0d4a15")
      (products lamp_db) (products d').
Proof.
  destruct (update_product config (Some lamp_db) second_env
              "5a0d9c3f-21b4-4e8a-8c77-6f2b1e0d4a15" (Some rename_request) al)
    as [db' r] eqn:Hrun.
  destruct (update_keeps_identity config _ _ _ _ _ _ _ Hrun)
    as (d' & -> & Husers & Hsame & _).
  clear Hrun. exists d'. split; [reflexivity|]. split; [exact Husers | exact Hsame].
Defined.

Lemma deletion_witness :
  delete_product (Some lamp_db) "5a0d9c3f-21b4-4e8a-8c77-6f2b1e0d4a15" al
  = (Some al_db,
     answer_with 200
       (ProductDeleted "5a0d9c3f-21b4-4e8a-8c77-6f2b1e0d4a15" "Lamp")) /\
  products lamp_db ≡ₚ lamp :: products al_db.
Proof.
  assert (delete_product (Some lamp_db) "5a0d9c3f-21b4-4e8a-8c77-6f2b1e0d4a15" al
          = (Some al_db,
             answer_with 200
               (ProductDeleted "5a0d9c3f-21b4-4e8a-8c77-6f2b1e0d4a15" "Lamp")))
    as Hrun by (vm_compute; reflexivity).
  split; [exact Hrun|].
  destruct (deletion_removes_one_document _ _ _ _ _ Hrun)
    as [(Hnone & _)|(p & d' & Hfind & [= <-] & _ & _ & Hperm)].
  - vm_compute in Hnone. discriminate Hnone.
  - vm_compute in Hfind. injection Hfind as <-. exact Hperm.
Defined.

Lemma creation_deletion_witness :
  find_product (new_uuid second_env) (products al_db) = None /\
  delete_product (Some lamp_db) (new_uuid second_env) al
  = (Some al_db,
     answer_with 200 (ProductDeleted (new_uuid second_env) (p_title lamp))).
Proof.
  split; [reflexivity|].
  destruct (creation_then_deletion_restores_store config al_db second_env
              (Some lamp_request) al al _ _ _ eq_refl lamp_creation)
    as (_ & Hdelete & _).
  exact Hdelete.
Defined.

Lemma listed_user_witness :
  get_user config (Some two_users) "64f1a2b3c4d5e6f708192a3c"
  = (Some two_users, answer_with 200 (UserFound (view alan))).
Proof.
  destruct (registered_user_is_listed config LegacyRegister al_db second_env
              (object legacy_request) _ _ "not-an-id" legacy_registration)
    as (Hfound & _); [reflexivity | reflexivity | reflexivity |].
  exact Hfound.
Defined.

End MoreRuns.
